(** * Heuristic mammography scorer of [src/utils/image_validator.py]

    A shallow embedding of the heuristic part of [AIImageValidator]:
    the five characteristic scorers and the aggregation that
    [_check_mammography_characteristics] performs on their results.

    Numbers.  The Python code computes with numpy floating-point values.
    The scorer is embedded once, over an abstract numeric carrier [Num T]
    (which also stands for the [float32] arrays of the contrast scorer),
    and instantiated twice:
    - [Num Q]: exact rational arithmetic, used for every universally
      quantified statement;
    - [Num float]: IEEE-754 binary64 ([PrimFloat]), used to run the code on
      the concrete numbers the specification quotes.
    The two differ by rounding, and on a division by zero: the mean of an
    empty array is [nan] in numpy and [0] in [Q].  Statements that depend
    on a mean therefore assume a non-empty array.

    OpenCV.  [cv2] is third-party code; every [cv2] entry point the scorer
    calls is a method of the class [Cv2] and may raise.

    Exceptions.  The scorers run in the error monad [result]; the body of
    the [try] of [_check_mammography_characteristics] threads the result
    dictionary through the calls, so that what was stored before an
    exception is still there when the [except] clause returns. *)

From Stdlib Require Import ZArith QArith Qabs Qminmax Qround Lqa Lia List Bool String.
From Stdlib Require Import Floats Uint63.
From stdpp Require Import gmap strings.
Import ListNotations.

Open Scope Z_scope.

(** ** Numeric carrier *)

Class Num (T : Type) : Type := {
  add : T -> T -> T;
  sub : T -> T -> T;
  mul : T -> T -> T;
  div : T -> T -> T;
  abs : T -> T;
  ltb : T -> T -> bool;          (* Python's [<] on floats *)
  of_Z : Z -> T                  (* int -> float conversion *)
}.

(** A decimal literal of the source, [n/d] with [d] a power of ten. *)
Definition lit {T} `{Num T} (n d : Z) : T := div (of_Z n) (of_Z d).

Definition Qltb (x y : Q) : bool := negb (Qle_bool y x).

#[export] Instance QNum : Num Q := {|
  add := Qplus; sub := Qminus; mul := Qmult; div := Qdiv; abs := Qabs;
  ltb := Qltb; of_Z := inject_Z
|}.

#[export] Instance F64 : Num float := {|
  add := PrimFloat.add; sub := PrimFloat.sub; mul := PrimFloat.mul;
  div := PrimFloat.div; abs := PrimFloat.abs; ltb := PrimFloat.ltb;
  of_Z := fun z => PrimFloat.of_uint63 (Uint63.of_Z z)
|}.

(** ** Python and numpy primitives *)

Section Primitives.
Context {T : Type} `{Num T}.

(** [max(a, b)]: the first argument unless the second is strictly larger. *)
Definition py_max (a b : T) : T := if ltb a b then b else a.

(** [min(a, b)]: the first argument unless the second is strictly smaller. *)
Definition py_min (a b : T) : T := if ltb b a then b else a.

(** [np.sum] of a float array: accumulation from 0.  This is numpy's loop
    for fewer than eight elements; for longer arrays numpy adds in blocks,
    which differs only by rounding. *)
Definition np_sum (xs : list T) : T := fold_left add xs (of_Z 0).

(** [np.mean] of a float array. *)
Definition np_mean (xs : list T) : T :=
  div (np_sum xs) (of_Z (Z.of_nat (length xs))).

(** [np.var] (ddof = 0): mean of the squared deviations from the mean. *)
Definition np_var (xs : list T) : T :=
  let arrmean := np_mean xs in
  np_mean (map (fun x => let d := sub x arrmean in mul d d) xs).

(** [np.mean] of a 2-D [uint8] array: the integer total is exact in
    float64, then one division by the element count. *)
Definition np_mean_u8 (a : list (list Z)) : T :=
  let flat := concat a in
  div (of_Z (fold_left Z.add flat 0)) (of_Z (Z.of_nat (length flat))).

(** ** Aggregation (lines 175-181 of [_check_mammography_characteristics]) *)

Definition threshold : T := lit 7 10.

(** Returns [(confidence, is_mammography)]. *)
Definition aggregate (scores : list T) : T * bool :=
  let confidence := np_mean scores in
  (confidence, ltb threshold confidence).

End Primitives.


(** ** Exceptions *)

Inductive exn : Type :=
| IndexError          (* numpy: index out of bounds for an axis *)
| Cv2Error.           (* [cv2.error], raised by an OpenCV entry point *)

Inductive result (A : Type) : Type :=
| Ok (a : A)
| Raise (e : exn).
Arguments Ok {A} a.
Arguments Raise {A} e.

Definition bind {A B} (c : result A) (k : A -> result B) : result B :=
  match c with
  | Ok a => k a
  | Raise e => Raise e
  end.

Notation "x <- c ;; k" := (bind c (fun x => k))
  (at level 20, c at level 99, k at level 200, only parsing).

(** Runs [f] over a list, stopping at the first exception. *)
Fixpoint mapM {A B} (f : A -> result B) (l : list A) : result (list B) :=
  match l with
  | [] => Ok []
  | x :: r => y <- f x ;; ys <- mapM f r ;; Ok (y :: ys)
  end.

(** ** Arrays *)

(** A 2-D array of integer intensities, row by row. *)
Abbreviation plane := (list (list Z)).

(** The decoded image: [len(image.shape)] is 2 or 3. *)
Inductive ndarray : Type :=
| Arr2 (a : plane)                      (* shape (H, W) *)
| Arr3 (a : list (list (list Z))).      (* shape (H, W, C) *)

(** [image[:, :, k]]. *)
Definition channel (a : list (list (list Z))) (k : nat) : result plane :=
  mapM (mapM (fun px => match nth_error px k with
                        | Some v => Ok v
                        | None => Raise IndexError
                        end)) a.

(** [a[:n]] and [a[-n:]] on one axis. *)
Definition take {A} (n : nat) (l : list A) : list A := firstn n l.
Definition take_last {A} (n : nat) (l : list A) : list A :=
  skipn (length l - n) l.

(** ** The OpenCV entry points used by the scorer *)

Class Cv2 (T : Type) : Type := {
  (* cv2.cvtColor(image, cv2.COLOR_RGB2GRAY) *)
  cvtColor_RGB2GRAY : list (list (list Z)) -> result plane;
  (* cv2.filter2D(src, -1, kernel) *)
  filter2D : list (list T) -> list (list T) -> result (list (list T));
  (* cv2.Canny(image, threshold1, threshold2) *)
  Canny : plane -> Z -> Z -> result plane;
  (* cv2.HoughCircles(image, HOUGH_GRADIENT, dp, minDist, param1, param2,
     minRadius, maxRadius): [None], or the rows of [circles[0]] *)
  HoughCircles : plane -> Z -> Z -> Z -> Z -> Z -> Z ->
                 result (option (list (T * T * T)));
  (* cv2.findContours(edges, RETR_EXTERNAL, CHAIN_APPROX_SIMPLE)[0] *)
  findContours : plane -> result (list (list (Z * Z)));
  (* cv2.calcHist([image], [0], None, [256], [0, 256]), flattened *)
  calcHist : plane -> result (list T);
  (* cv2.GaussianBlur(hist.reshape(1, -1), (1, 15), 0).flatten() *)
  GaussianBlur : list T -> result (list T)
}.

(** [np.sqrt]; rationals have no exact square root, so it is a parameter. *)
Class Sqrt (T : Type) : Type := sqrt : T -> T.

#[export] Instance F64sqrt : Sqrt float := PrimFloat.sqrt.

(** ** The five scorers *)

Section Scorers.
Context {T : Type} `{Num T} `{Sqrt T} `{Cv2 T}.

(** [np.std]. *)
Definition np_std (xs : list T) : T := sqrt (np_var xs).

(** [np.max] of a non-empty array. *)
Definition np_max (xs : list T) : T :=
  match xs with
  | [] => of_Z 0
  | x :: r => fold_left (fun m y => if ltb m y then y else m) r x
  end.

(** [a.astype(np.float32)]. *)
Definition astype_float (a : plane) : list (list T) := map (map of_Z) a.

(** [np.abs(a - b)] on two arrays of the same shape. *)
Definition abs_diff (a b : list (list T)) : list (list T) :=
  map (fun rows => map (fun xy => abs (sub (fst xy) (snd xy)))
                       (combine (fst rows) (snd rows)))
      (combine a b).

(** Lines 188-199. *)
Definition _check_grayscale_nature (image : ndarray) : result T :=
  match image with
  | Arr2 _ => Ok (of_Z 1)
  | Arr3 a =>
      r <- channel a 0 ;;
      g <- channel a 1 ;;
      b <- channel a 2 ;;
      let color_variance := np_var [np_mean_u8 r; np_mean_u8 g; np_mean_u8 b] in
      let grayscale_score :=
        py_max (of_Z 0) (sub (of_Z 1) (div color_variance (of_Z 1000))) in
      Ok (py_min (of_Z 1) grayscale_score)
  end.

(** Lines 212-217: the tier of a contrast standard deviation. *)
Definition contrast_tier (contrast_std : T) : T :=
  if ltb (of_Z 10) contrast_std && ltb contrast_std (of_Z 50) then lit 8 10
  else if ltb (of_Z 5) contrast_std && ltb contrast_std (of_Z 80) then lit 6 10
  else lit 3 10.

(** [np.ones((5,5), np.float32) / 25]. *)
Definition mean_kernel : list (list T) :=
  repeat (repeat (div (of_Z 1) (of_Z 25)) 5) 5.

(** Lines 201-217. *)
Definition _analyze_contrast_patterns (gray_image : plane) : result T :=
  let kernel := mean_kernel in
  blurred <- filter2D (astype_float gray_image) kernel ;;
  let contrast := abs_diff (astype_float gray_image) blurred in
  let contrast_std := np_std (concat contrast) in
  Ok (contrast_tier contrast_std).

(** Line 229: [circles is not None and len(circles[0]) > 0]. *)
Definition circles_found (circles : option (list (T * T * T))) : bool :=
  match circles with
  | Some c0 => (0 <? length c0)%nat
  | None => false
  end.

(** Lines 219-237. *)
Definition _analyze_breast_shape_patterns (gray_image : plane) : result T :=
  edges <- Canny gray_image 50 150 ;;
  circles <- HoughCircles gray_image 1 100 50 30 20 200 ;;
  if circles_found circles
  then Ok (lit 7 10)
  else
    contours <- findContours edges ;;
    if (5 <? length contours)%nat then Ok (lit 6 10) else Ok (lit 4 10).

(** The four corner patches of lines 242-247. *)
Definition corners (gray_image : plane) : list plane :=
  [ map (take 50) (take 50 gray_image);
    map (take_last 50) (take 50 gray_image);
    map (take 50) (take_last 50 gray_image);
    map (take_last 50) (take_last 50 gray_image) ].

(** Lines 239-256. *)
Definition _check_medical_artifacts (gray_image : plane) : result T :=
  let corner_means := map np_mean_u8 (corners gray_image) in
  let corner_variance := np_var corner_means in
  if ltb corner_variance (of_Z 100) then Ok (lit 7 10) else Ok (lit 4 10).

(** The loop of lines 267-271: indices of the significant local maxima. *)
Definition find_peaks (hist_smooth : list T) : list nat :=
  let at_ i := nth i hist_smooth (of_Z 0) in
  List.filter
    (fun i =>
       ltb (at_ (i - 1)%nat) (at_ i) && ltb (at_ (i + 1)%nat) (at_ i)
       && ltb (mul (np_max hist_smooth) (lit 1 10)) (at_ i))
    (seq 1 (length hist_smooth - 2)).

(** Lines 258-277. *)
Definition _analyze_histogram_patterns (gray_image : plane) : result T :=
  hist <- calcHist gray_image ;;
  hist_smooth <- GaussianBlur hist ;;
  let peaks := find_peaks hist_smooth in
  if (1 <=? length peaks)%nat && (length peaks <=? 3)%nat
  then Ok (lit 8 10) else Ok (lit 5 10).

End Scorers.

(** ** The characteristic analysis (lines 138-186) *)

(** The [result] dictionary of [_check_mammography_characteristics]. *)
Record analysis (T : Type) : Type := mk_analysis {
  is_mammography : bool;
  confidence : T;
  characteristics : gmap string T
}.
Arguments mk_analysis {T}.
Arguments is_mammography {T}.
Arguments confidence {T}.
Arguments characteristics {T}.

(** Code inside the [try] block: it updates the dictionary in place and may
    raise; the updates made before an exception stay. *)
Definition M (T A : Type) : Type := analysis T -> analysis T * result A.

Definition bindM {T A B} (c : M T A) (k : A -> M T B) : M T B :=
  fun st => match c st with
            | (st', Ok a) => k a st'
            | (st', Raise e) => (st', Raise e)
            end.

Notation "x <~ c ;; k" := (bindM c (fun x => k))
  (at level 20, c at level 99, k at level 200, only parsing).

Definition retM {T A} (a : A) : M T A := fun st => (st, Ok a).

Definition lift {T A} (c : result A) : M T A := fun st => (st, c).

(** [result['characteristics'][key] = v]. *)
Definition set_characteristic {T} (key : string) (v : T) : M T unit :=
  fun st => (mk_analysis (is_mammography st) (confidence st)
                         (<[key := v]> (characteristics st)), Ok tt).

(** [result['confidence'] = v]. *)
Definition set_confidence {T} (v : T) : M T unit :=
  fun st => (mk_analysis (is_mammography st) v (characteristics st), Ok tt).

(** [result['is_mammography'] = b]. *)
Definition set_is_mammography {T} (b : bool) : M T unit :=
  fun st => (mk_analysis b (confidence st) (characteristics st), Ok tt).

Section Analysis.
Context {T : Type} `{Num T} `{Sqrt T} `{Cv2 T}.

(** Lines 142-146. *)
Definition initial_result : analysis T :=
  mk_analysis false (of_Z 0) ∅.

(** Lines 150-153. *)
Definition to_gray (image : ndarray) : result plane :=
  match image with
  | Arr3 a => cvtColor_RGB2GRAY a
  | Arr2 a => Ok a
  end.

(** Lines 149-181, the body of the [try]. *)
Definition analysis_body (image : ndarray) : M T unit :=
  gray <~ lift (to_gray image) ;;
  grayscale_score <~ lift (_check_grayscale_nature image) ;;
  _ <~ set_characteristic "grayscale_score" grayscale_score ;;
  contrast_score <~ lift (_analyze_contrast_patterns gray) ;;
  _ <~ set_characteristic "contrast_score" contrast_score ;;
  shape_score <~ lift (_analyze_breast_shape_patterns gray) ;;
  _ <~ set_characteristic "shape_score" shape_score ;;
  artifact_score <~ lift (_check_medical_artifacts gray) ;;
  _ <~ set_characteristic "artifact_score" artifact_score ;;
  histogram_score <~ lift (_analyze_histogram_patterns gray) ;;
  _ <~ set_characteristic "histogram_score" histogram_score ;;
  let scores := [grayscale_score; contrast_score; shape_score;
                 artifact_score; histogram_score] in
  _ <~ set_confidence (fst (aggregate scores)) ;;
  if snd (aggregate scores) then set_is_mammography true else retM tt.



(** Lines 138-186: the [except] clause only logs, so the dictionary as it
    stands is returned whether or not the body raised. *)
Definition _check_mammography_characteristics (image : ndarray) : analysis T :=
  fst (analysis_body image initial_result).

End Analysis.

(** ** Image predicates used in the statements *)

(** Every pixel has exactly three channels. *)
Definition three_channel (a : list (list (list Z))) : bool :=
  forallb (forallb (fun px => (length px =? 3)%nat)) a.

Definition pixel_count (a : list (list (list Z))) : nat := length (concat a).

(** All three channels are equal at every pixel. *)
Definition is_gray_px (px : list Z) : bool :=
  match px with
  | [r; g; b] => (r =? g) && (g =? b)
  | _ => false
  end.

Definition uniformly_gray (a : list (list (list Z))) : bool :=
  forallb (forallb is_gray_px) a.

Definition is_red_px (px : list Z) : bool :=
  match px with
  | [r; g; b] => (r =? 255) && (g =? 0) && (b =? 0)
  | _ => false
  end.

Definition is_blue_px (px : list Z) : bool :=
  match px with
  | [r; g; b] => (r =? 0) && (g =? 0) && (b =? 255)
  | _ => false
  end.

Definition count_px (p : list Z -> bool) (a : list (list (list Z))) : nat :=
  length (List.filter p (concat a)).

(** Every pixel is pure red or pure blue, and each colour covers one half
    of the pixels. *)
Definition red_blue_halves (a : list (list (list Z))) : bool :=
  forallb (forallb (fun px => is_red_px px || is_blue_px px)) a
  && (count_px is_red_px a =? count_px is_blue_px a)%nat
  && (0 <? pixel_count a)%nat.

(** Left half red, right half blue: [h] rows of [w + w] pixels. *)
Definition red_left_blue_right (h w : nat) : list (list (list Z)) :=
  repeat (repeat [255; 0; 0] w ++ repeat [0; 0; 255] w) h.

(** ** The grayscale score as the specification words it *)

(** Mean intensity of channel [k]. *)
Definition channel_mean (a : list (list (list Z))) (k : nat) : Q :=
  (inject_Z (fold_left Z.add (map (fun px => nth k px 0%Z) (concat a)) 0%Z)
   / inject_Z (Z.of_nat (pixel_count a)))%Q.

(** Variance of three numbers. *)
Definition variance3 (x y z : Q) : Q :=
  let m := ((x + y + z) / 3)%Q in
  (((x - m) * (x - m) + (y - m) * (y - m) + (z - m) * (z - m)) / 3)%Q.

Definition channel_mean_variance (a : list (list (list Z))) : Q :=
  variance3 (channel_mean a 0) (channel_mean a 1) (channel_mean a 2).

(** [max(0, 1 - variance/1000)] clamped to [0,1]. *)
Definition score_grayscale_spec (v : Q) : Q :=
  Qmin 1 (Qmax 0 (1 - v / 1000)).

(** ** A pseudo-random 512 x 512 colour image *)

(** One step of a linear congruential generator modulo 2^32, on machine
    integers. *)
Definition lcg (mult incr x : int) : int :=
  Uint63.land (Uint63.add (Uint63.mul mult x) incr) 4294967295%uint63.

(** [n] successive outputs (the top eight bits of each state) and the
    state reached. *)
Fixpoint lcg_row (mult incr : int) (n : nat) (x : int) : list Z * int :=
  match n with
  | O => ([], x)
  | S n' =>
      let x' := lcg mult incr x in
      let (r, x'') := lcg_row mult incr n' x' in
      (Uint63.to_Z (Uint63.lsr x' 24) :: r, x'')
  end.

Fixpoint lcg_plane (mult incr : int) (h w : nat) (x : int) : plane :=
  match h with
  | O => []
  | S h' =>
      let (row, x') := lcg_row mult incr w x in
      row :: lcg_plane mult incr h' w x'
  end.

(** One row of [np.dstack((r, g, b))]. *)
Definition row_stack (rr gr br : list Z) : list (list Z) :=
  map (fun px => [fst (fst px); snd (fst px); snd px])
      (combine (combine rr gr) br).

(** [np.dstack((r, g, b))]. *)
Definition dstack (r g b : plane) : list (list (list Z)) :=
  map (fun rows => row_stack (fst (fst rows)) (snd (fst rows)) (snd rows))
      (combine (combine r g) b).

(** Three channels drawn from three different generators. *)
Definition random_rgb (h w : nat) : list (list (list Z)) :=
  dstack (lcg_plane 1664525 1013904223 h w 2024)%uint63
         (lcg_plane 22695477 1 h w 7)%uint63
         (lcg_plane 214013 2531011 h w 99)%uint63.

(** [h] rows of [w] samples. *)
Definition rect (h w : nat) (p : plane) : Prop :=
  length p = h /\ Forall (fun row => length row = w) p.

(** The total of the generated samples, accumulated on machine integers
    without building the plane. *)
Fixpoint lcg_row_total (mult incr : int) (n : nat) (x acc : int)
  : int * int :=
  match n with
  | O => (acc, x)
  | S n' =>
      let x' := lcg mult incr x in
      lcg_row_total mult incr n' x' (Uint63.add acc (Uint63.lsr x' 24))
  end.

Fixpoint lcg_plane_total (mult incr : int) (h w : nat) (x acc : int) : int :=
  match h with
  | O => acc
  | S h' =>
      let (acc', x') := lcg_row_total mult incr w x acc in
      lcg_plane_total mult incr h' w x' acc'
  end.

(** Lines 195-199 on three channel totals over [n] pixels each. *)
Definition score_of_totals {T} `{Num T} (n tr tg tb : Z) : T :=
  let color_variance :=
    np_var [div (of_Z tr) (of_Z n); div (of_Z tg) (of_Z n);
            div (of_Z tb) (of_Z n)] in
  py_min (of_Z 1)
         (py_max (of_Z 0) (sub (of_Z 1) (div color_variance (of_Z 1000)))).

(** ** A test double for OpenCV *)

Section Double.
Context {T : Type} `{Num T}.

(** Luma of an RGB pixel, rounded to the nearest integer; OpenCV rejects a
    pixel that does not have three channels. *)
Definition luma (px : list Z) : result Z :=
  match px with
  | [r; g; b] => Ok ((299 * r + 587 * g + 114 * b + 500) / 1000)
  | _ => Raise Cv2Error
  end.

(** Border index, mirrored without repeating the edge sample. *)
Definition reflect101 (n : nat) (p : Z) : nat :=
  let n' := Z.of_nat n in
  let q := if p <? 0 then - p else if n' <=? p then 2 * n' - 2 - p else p in
  Z.to_nat (Z.max 0 (Z.min (n' - 1) q)).

Definition sample (src : list (list T)) (i j : Z) : T :=
  let row := nth (reflect101 (length src) i) src [] in
  nth (reflect101 (length row) j) row (of_Z 0).

(** Correlation of [src] with [kernel], anchored at the kernel centre. *)
Definition correlate (src kernel : list (list T)) : list (list T) :=
  let kh := length kernel in
  let kw := length (nth 0 kernel []) in
  let taps i j :=
    flat_map (fun u =>
                map (fun v =>
                       mul (nth v (nth u kernel []) (of_Z 0))
                           (sample src (i + Z.of_nat u - Z.of_nat (kh / 2))
                                       (j + Z.of_nat v - Z.of_nat (kw / 2))))
                    (seq 0 kw))
             (seq 0 kh) in
  map (fun i => map (fun j => np_sum (taps (Z.of_nat i) (Z.of_nat j)))
                    (seq 0 (length (nth i src []))))
      (seq 0 (length src)).

Definition is_u8 (a : plane) : bool :=
  forallb (forallb (fun v => (0 <=? v) && (v <=? 255))) a.

(** The 256-bin intensity histogram. *)
Definition histogram (a : plane) : list T :=
  map (fun v => of_Z (Z.of_nat (count_occ Z.eq_dec (concat a) (Z.of_nat v))))
      (seq 0 256).

(** The double: colour conversion, filtering and the histogram are
    computed; the edge detector accepts 8-bit input only and reports no
    edge; the circle and contour detectors return the canned answers
    [circles] and [contours]; the histogram is left unsmoothed.  [norm]
    stores each filtered sample in its carrier's normal form (fractions in
    lowest terms; nothing to do for binary64). *)
Definition cv2_double (norm : T -> T) (circles : option (list (T * T * T)))
    (contours : list (list (Z * Z))) : Cv2 T := {|
  cvtColor_RGB2GRAY := fun a => mapM (mapM luma) a;
  filter2D := fun src kernel => Ok (map (map norm) (correlate src kernel));
  Canny := fun a _ _ =>
    if is_u8 a then Ok (map (map (fun _ => 0)) a) else Raise Cv2Error;
  HoughCircles := fun _ _ _ _ _ _ _ => Ok circles;
  findContours := fun _ => Ok contours;
  calcHist := fun a => Ok (histogram a);
  GaussianBlur := fun h => Ok h
|}.

End Double.

(** Square root of a rational, truncated to three decimals. *)
Definition Qsqrt3 (q : Q) : Q :=
  (inject_Z (Z.sqrt (Qfloor (q * 1000000))) / 1000)%Q.


(** A 2 x 2 array with two channels per pixel. *)
Definition two_channel : ndarray :=
  Arr3 [[[10; 20]; [30; 40]]; [[50; 60]; [70; 80]]].

(** A 2 x 2 gray image stored with three channels. *)
Definition gray2x2 : list (list (list Z)) :=
  [[[10; 10; 10]; [200; 200; 200]]; [[37; 37; 37]; [90; 90; 90]]].

(** A 1 x 3 8-bit image: two dark pixels and a bright one. *)
Definition strip : plane := [[10; 10; 200]].

(** ** Definitions used in the statements *)

(** The arithmetic mean of five numbers, as the specification words it. *)
Definition mean5 (g c s a h : Q) : Q := ((g + c + s + a + h) / 5)%Q.

(** The dictionary after a run in which nothing raised. *)
Definition completed (g c s a h : Q) : analysis Q :=
  mk_analysis (snd (aggregate [g; c; s; a; h]))
              (fst (aggregate [g; c; s; a; h]))
              (<["histogram_score" := h]>
                 (<["artifact_score" := a]>
                    (<["shape_score" := s]>
                       (<["contrast_score" := c]>
                          (<["grayscale_score" := g]> ∅))))).

(** Two instances of the double: one whose circle detector reports a
    circle, one whose detectors report nothing. *)
Definition dbl : Cv2 Q := cv2_double Qred (Some [(1, 1, 1)%Q]) [].

(** The binary64 aggregate over every combination the four tiered scorers
    can return, with the grayscale score at 0, 0.5 and 1: the confidence
    stays within [0.32, 0.8], and at grayscale 0.5 the verdict is False. *)
Definition binary64_grid_check : bool :=
  forallb (fun c =>
  forallb (fun s =>
  forallb (fun a =>
  forallb (fun h =>
    let at_ (g : float) := aggregate [g; c; s; a; h] in
    negb (ltb (fst (at_ (of_Z 0))) (lit 32 100))
    && negb (ltb (lit 8 10) (fst (at_ (of_Z 1))))
    && negb (snd (at_ (lit 5 10))))
    [lit 8 10; lit 5 10])
    [lit 7 10; lit 4 10])
    [lit 7 10; lit 6 10; lit 4 10])
    [lit 8 10; lit 6 10; lit 3 10].

(** ** The rest of [AIImageValidator]: file checks, loading, the medical
    property check and [validate_image] *)

(** Python's [<=] on floats. *)
Class Le (T : Type) : Type := leb : T -> T -> bool.

#[export] Instance QLe : Le Q := Qle_bool.
#[export] Instance F64Le : Le float := PrimFloat.leb.

(** What [pathlib] and PIL report for a path: [Path(p).exists()],
    [Path(p).suffix], [Path(p).stat().st_size], and the RGB array
    [np.array(Image.open(p).convert('RGB'))] or the exception raised on the
    way to it. *)
Class Files : Type := {
  path_exists : string -> bool;
  path_suffix : string -> string;
  path_size : string -> Z;
  pil_load_rgb : string -> result (list (list (list Z)))
}.

(** [str.lower] on ASCII letters. *)
Definition ascii_lower (c : Ascii.ascii) : Ascii.ascii :=
  let n := Ascii.nat_of_ascii c in
  if (65 <=? n)%nat && (n <=? 90)%nat then Ascii.ascii_of_nat (n + 32) else c.

Fixpoint lower (s : string) : string :=
  match s with
  | EmptyString => EmptyString
  | String c r => String (ascii_lower c) (lower r)
  end.

(** The exceptions the [except] clause of [validate_image] can catch. *)
Inductive caught : Type :=
| ZeroDivisionError
| Reraised (e : exn).

Inductive step (A : Type) : Type :=
| Returns (a : A)
| Throws (e : caught).
Arguments Returns {A} a.
Arguments Throws {A} e.

(** The messages, by kind, with the value each one interpolates. *)
Inductive error_msg (T : Type) : Type :=
| FileDoesNotExist                 (* "File does not exist" *)
| UnsupportedFormat (ext : string) (* "Unsupported format: {file_ext}" *)
| FileTooLarge (size : Z)          (* "File too large: {size/(1024*1024):.1f}MB" *)
| FileTooSmall                     (* "File too small to be a medical image" *)
| FailedToLoad                     (* "Failed to load image" *)
| NotMammography (conf : T)        (* "Image does not appear to be a breast
                                      mammography. Confidence: {conf:.2f}" *)
| ValidationError (e : caught).    (* "Validation error: {str(e)}" *)
Arguments FileDoesNotExist {T}.
Arguments UnsupportedFormat {T} ext.
Arguments FileTooLarge {T} size.
Arguments FileTooSmall {T}.
Arguments FailedToLoad {T}.
Arguments NotMammography {T} conf.
Arguments ValidationError {T} e.

Inductive warning_msg (T : Type) : Type :=
| UnusualAspectRatio (ratio : T)   (* "Unusual aspect ratio: {ratio:.2f}" *)
| VeryDark                         (* "Image appears very dark" *)
| VeryBright.                      (* "Image appears very bright" *)
Arguments UnusualAspectRatio {T} ratio.
Arguments VeryDark {T}.
Arguments VeryBright {T}.

(** Lines 26-28 of [__init__]. *)
Definition supported_formats : list string :=
  [".jpg"; ".jpeg"; ".png"; ".dcm"; ".dicom"]%string.
Definition max_file_size : Z := 50 * 1024 * 1024.

(** The dictionary of [_validate_basic_properties]. *)
Record basic (T : Type) : Type := mk_basic {
  b_is_valid : bool;
  b_errors : list (error_msg T)
}.
Arguments mk_basic {T}.
Arguments b_is_valid {T}.
Arguments b_errors {T}.

(** The dictionary of [validate_image]; [image_info] stays empty and is
    left out, and ['characteristics'] exists only after the [update] of
    line 66. *)
Record validation (T : Type) : Type := mk_validation {
  v_is_valid : bool;
  v_is_mammography : bool;
  v_confidence : T;
  v_errors : list (error_msg T);
  v_warnings : list (warning_msg T);
  v_characteristics : option (gmap string T)
}.
Arguments mk_validation {T}.
Arguments v_is_valid {T}.
Arguments v_is_mammography {T}.
Arguments v_confidence {T}.
Arguments v_errors {T}.
Arguments v_warnings {T}.
Arguments v_characteristics {T}.

Section Validator.
Context {T : Type} `{Num T} `{Le T} `{Sqrt T} `{Cv2 T} `{Files}.

(** Lines 87-113. *)
Definition _validate_basic_properties (image_path : string) : basic T :=
  if negb (path_exists image_path)
  then mk_basic false [FileDoesNotExist]
  else
    let r0 := mk_basic true [] in
    let file_ext := lower (path_suffix image_path) in
    let r1 :=
      if negb (existsb (String.eqb file_ext) supported_formats)
      then mk_basic false (b_errors r0 ++ [UnsupportedFormat file_ext])
      else r0 in
    let file_size := path_size image_path in
    let r2 :=
      if max_file_size <? file_size
      then mk_basic false (b_errors r1 ++ [FileTooLarge file_size])
      else r1 in
    if file_size <? 1024
    then mk_basic false (b_errors r2 ++ [FileTooSmall])
    else r2.

(** Lines 115-136: the resolution check only logs; any exception gives
    [None]. *)
Definition _load_image (image_path : string) : option ndarray :=
  match pil_load_rgb image_path with
  | Ok a => Some (Arr3 a)
  | Raise _ => None
  end.

(** [image.shape[:2]]. *)
Definition height (image : ndarray) : nat :=
  match image with
  | Arr2 a => length a
  | Arr3 a => length a
  end.

Definition width (image : ndarray) : nat :=
  match image with
  | Arr2 a => length (hd [] a)
  | Arr3 a => length (hd [] a)
  end.

(** Lines 291-301: the brightness warnings. *)
Definition brightness_warnings (mean_brightness : T) : list (warning_msg T) :=
  if ltb mean_brightness (of_Z 30) then [VeryDark]
  else if ltb (of_Z 200) mean_brightness then [VeryBright]
  else [].

(** Lines 279-303.  [width / height] divides two Python ints. *)
Definition _validate_medical_image_properties (image : ndarray)
  : step (list (warning_msg T)) :=
  if (height image =? 0)%nat then Throws ZeroDivisionError
  else
    let aspect_ratio :=
      div (of_Z (Z.of_nat (width image))) (of_Z (Z.of_nat (height image))) in
    let w1 :=
      if negb (leb (lit 5 10) aspect_ratio && leb aspect_ratio (of_Z 2))
      then [UnusualAspectRatio aspect_ratio]
      else [] in
    match to_gray image with
    | Raise e => Throws (Reraised e)
    | Ok gray =>
        let mean_brightness := np_mean_u8 gray in
        Returns (w1 ++ brightness_warnings mean_brightness)
    end.

(** Lines 42-49. *)
Definition initial_validation : validation T :=
  mk_validation false false (of_Z 0) [] [] None.

(** [validation_result.update(mammography_check)]. *)
Definition update (r : validation T) (c : analysis T) : validation T :=
  mk_validation (v_is_valid r) (is_mammography c) (confidence c)
                (v_errors r) (v_warnings r) (Some (characteristics c)).

Definition add_errors (es : list (error_msg T)) (r : validation T)
  : validation T :=
  mk_validation (v_is_valid r) (v_is_mammography r) (v_confidence r)
                (v_errors r ++ es) (v_warnings r) (v_characteristics r).

Definition add_warnings (ws : list (warning_msg T)) (r : validation T)
  : validation T :=
  mk_validation (v_is_valid r) (v_is_mammography r) (v_confidence r)
                (v_errors r) (v_warnings r ++ ws) (v_characteristics r).

Definition set_valid (r : validation T) : validation T :=
  mk_validation true (v_is_mammography r) (v_confidence r)
                (v_errors r) (v_warnings r) (v_characteristics r).

(** Lines 32-85.  The only call inside the [try] that can raise is
    [_validate_medical_image_properties]: the loader and the characteristic
    analysis catch their own exceptions. *)
Definition validate_image (image_path : string) : validation T :=
  let validation_result := initial_validation in
  let basic_validation := _validate_basic_properties image_path in
  if negb (b_is_valid basic_validation)
  then add_errors (b_errors basic_validation) validation_result
  else
    match _load_image image_path with
    | None => add_errors [FailedToLoad] validation_result
    | Some image =>
        let mammography_check := _check_mammography_characteristics image in
        let r1 := update validation_result mammography_check in
        match _validate_medical_image_properties image with
        | Throws e => add_errors [ValidationError e] r1
        | Returns warnings =>
            let r2 := add_warnings warnings r1 in
            if v_is_mammography r2 && ltb (lit 7 10) (v_confidence r2)
            then set_valid r2
            else add_errors [NotMammography (v_confidence r2)] r2
        end
    end.

End Validator.

(** A file system holding one file: every path reports the same
    existence, suffix, size and decoded array. *)
Definition files_double (present : bool) (suffix : string) (size : Z)
    (decoded : result (list (list (list Z)))) : Files := {|
  path_exists := fun _ => present;
  path_suffix := fun _ => suffix;
  path_size := fun _ => size;
  pil_load_rgb := fun _ => decoded
|}.

(** The 1 x 3 strip stored with three equal channels, and a file system
    holding it as a PNG of 4 KiB. *)
Definition strip_rgb : list (list (list Z)) :=
  [[[10; 10; 10]; [10; 10; 10]; [200; 200; 200]]].

Definition strip_png : Files := files_double true ".png" 4096 (Ok strip_rgb).

(** A file system whose decoder yields a two-channel array. *)
Definition two_channel_png : Files :=
  files_double true ".png" 4096
    (Ok [[[10; 20]; [30; 40]]; [[50; 60]; [70; 80]]]).

(** * Properties *)

(** ** Facts about the exact instance *)

Lemma Qltb_lt (x y : Q) : Qltb x y = true <-> (x < y)%Q.
Proof.
  unfold Qltb. rewrite negb_true_iff, <- not_true_iff_false, Qle_bool_iff.
  split; [apply Qnot_le_lt | apply Qlt_not_le].
Qed.

Lemma Qltb_ge (x y : Q) : Qltb x y = false <-> (y <= x)%Q.
Proof.
  unfold Qltb. rewrite negb_false_iff. apply Qle_bool_iff.
Qed.

(** Decides one comparison of the exact instance and records the fact. *)
Ltac case_ltb x y :=
  let E := fresh "E" in
  destruct (Qltb x y) eqn:E;
  [apply Qltb_lt in E | apply Qltb_ge in E].

(** Exposes the rational operations behind the [Num] projections. *)
Ltac exactQ :=
  unfold threshold, lit, np_std, np_var, np_mean, np_sum, np_mean_u8 in *;
  cbn [add sub mul div abs ltb of_Z QNum fold_left map length
       Z.of_nat Pos.of_succ_nat Pos.succ] in *;
  change (inject_Z 0) with 0%Q in *.

(** Source literals of the exact instance, as fractions. *)
Ltac lits :=
  change (lit 3 10) with (3 # 10)%Q in *;
  change (inject_Z 3 / inject_Z 10)%Q with (3 # 10)%Q in *;
  change (lit 4 10) with (4 # 10)%Q in *;
  change (inject_Z 4 / inject_Z 10)%Q with (4 # 10)%Q in *;
  change (lit 5 10) with (5 # 10)%Q in *;
  change (inject_Z 5 / inject_Z 10)%Q with (5 # 10)%Q in *;
  change (lit 6 10) with (6 # 10)%Q in *;
  change (inject_Z 6 / inject_Z 10)%Q with (6 # 10)%Q in *;
  change (lit 7 10) with (7 # 10)%Q in *;
  change (inject_Z 7 / inject_Z 10)%Q with (7 # 10)%Q in *;
  change (lit 8 10) with (8 # 10)%Q in *;
  change (inject_Z 8 / inject_Z 10)%Q with (8 # 10)%Q in *;
  change (of_Z 0) with 0%Q in *; change (inject_Z 0) with 0%Q in *;
  change (of_Z 1) with 1%Q in *; change (inject_Z 1) with 1%Q in *.

(** [lra] reads a division by a numeral as a product. *)
Ltac div_consts :=
  unfold Qdiv in *;
  change (/ 1000)%Q with (1 # 1000)%Q in *;
  change (/ 5)%Q with (1 # 5)%Q in *;
  change (/ 3)%Q with (1 # 3)%Q in *.

Lemma aggregate_confidence (g c s a h : Q) :
  (fst (aggregate [g; c; s; a; h]) == mean5 g c s a h)%Q.
Proof.
  unfold aggregate, mean5. exactQ. cbn [fst]. field.
Qed.

Lemma aggregate_verdict (scores : list Q) :
  snd (aggregate scores) = true <-> (7 # 10 < fst (aggregate scores))%Q.
Proof.
  unfold aggregate. cbn [fst snd]. rewrite Qltb_lt. reflexivity.
Qed.

(** C1: aggregate returns the unweighted arithmetic mean of the five
    sub-scores as confidence and [confidence > 0.7] (strict) as verdict.
    For [0.8, 0.6, 0.7, 0.7, 0.8] the confidence is 0.72 and the verdict is
    True, both in exact arithmetic and in binary64; five scores whose mean
    is exactly 0.7 give the verdict False. *)
Theorem aggregate_mean_threshold :
  (forall g c s a h : Q,
      let r := aggregate [g; c; s; a; h] in
      (fst r == mean5 g c s a h)%Q /\
      (snd r = true <-> (7 # 10 < fst r)%Q) /\
      ((mean5 g c s a h == 7 # 10)%Q -> snd r = false)) /\
  (let r := aggregate [8 # 10; 6 # 10; 7 # 10; 7 # 10; 8 # 10]%Q in
   (fst r == 72 # 100)%Q /\ snd r = true) /\
  aggregate (T := float) [lit 8 10; lit 6 10; lit 7 10; lit 7 10; lit 8 10]
    = (lit 72 100, true) /\
  (forall scores : list float,
      fst (aggregate scores) = lit 7 10 -> snd (aggregate scores) = false).
Proof.
  split; [| split; [| split]].
  - intros g c s a h r. subst r.
    split; [apply aggregate_confidence | split; [apply aggregate_verdict |]].
    intros Heq. apply not_true_is_false. rewrite aggregate_verdict.
    rewrite aggregate_confidence, Heq. apply Qlt_irrefl.
  - cbn zeta. split; vm_compute; reflexivity.
  - reflexivity.
  - intros scores Hc. unfold aggregate in *. cbn [fst snd] in *.
    rewrite Hc. reflexivity.
Qed.

Lemma aggregate_mean_threshold_witness :
  (mean5 (7 # 10) (7 # 10) (7 # 10) (7 # 10) (7 # 10) == 7 # 10)%Q /\
  snd (aggregate [7 # 10; 7 # 10; 7 # 10; 7 # 10; 7 # 10]%Q) = false.
Proof.
  assert (H : (mean5 (7 # 10) (7 # 10) (7 # 10) (7 # 10) (7 # 10) == 7 # 10)%Q)
    by reflexivity.
  split; [exact H |].
  exact (proj2 (proj2 (proj1 aggregate_mean_threshold
                         (7 # 10) (7 # 10) (7 # 10) (7 # 10) (7 # 10))%Q) H).
Defined.

(** ** Contrast and shape tiers *)

Lemma contrast_tier_values {T} `{Num T} (s : T) :
  contrast_tier s = lit 8 10 \/ contrast_tier s = lit 6 10 \/
  contrast_tier s = lit 3 10.
Proof.
  unfold contrast_tier.
  destruct (ltb (of_Z 10) s && ltb s (of_Z 50));
    [| destruct (ltb (of_Z 5) s && ltb s (of_Z 80))]; auto.
Qed.




Lemma shape_score_values {T} `{Num T} `{Cv2 T} (gray : plane) (v : T) :
  _analyze_breast_shape_patterns gray = Ok v ->
  v = lit 7 10 \/ v = lit 6 10 \/ v = lit 4 10.
Proof.
  unfold _analyze_breast_shape_patterns.
  destruct (Canny _ _ _); cbn [bind]; [| discriminate].
  destruct (HoughCircles _ _ _ _ _ _ _); cbn [bind]; [| discriminate].
  destruct (circles_found _); [intros [= <-]; auto |].
  destruct (findContours _); cbn [bind]; [| discriminate].
  destruct (5 <? length _)%nat; intros [= <-]; auto.
Qed.



(** ** The grayscale score *)

Lemma mapM_map {A B} (f : A -> result B) (g : A -> B) (l : list A) :
  (forall x, In x l -> f x = Ok (g x)) -> mapM f l = Ok (map g l).
Proof.
  induction l as [| x l IH]; intros Hf; cbn [mapM map]; [reflexivity |].
  rewrite (Hf x (or_introl eq_refl)). cbn [bind].
  rewrite IH; [reflexivity |]. intros y Hy. apply Hf. right. exact Hy.
Qed.

Lemma three_channel_px (a : list (list (list Z))) (row px : list Z)
      (rows : list (list Z)) :
  three_channel a = true -> In rows a -> In px rows -> length px = 3%nat.
Proof.
  unfold three_channel. rewrite forallb_forall. intros Ha Hr Hp.
  specialize (Ha rows Hr). rewrite forallb_forall in Ha.
  apply Nat.eqb_eq. exact (Ha px Hp).
Qed.

Lemma channel_three (a : list (list (list Z))) (k : nat) :
  three_channel a = true -> (k < 3)%nat ->
  channel a k = Ok (map (map (fun px => nth k px 0)) a).
Proof.
  intros Ha Hk. unfold channel. apply mapM_map. intros rows Hr.
  apply mapM_map. intros px Hp.
  assert (Hl : length px = 3%nat) by (eapply three_channel_px; eauto; exact []).
  destruct (nth_error px k) as [v |] eqn:E.
  - f_equal. symmetry. apply nth_error_nth. exact E.
  - apply nth_error_None in E. lia.
Qed.

(** The per-channel mean the code computes is the channel mean. *)
Lemma np_mean_u8_channel (a : list (list (list Z))) (k : nat) :
  np_mean_u8 (T := Q) (map (map (fun px => nth k px 0)) a) = channel_mean a k.
Proof.
  unfold np_mean_u8, channel_mean, pixel_count.
  rewrite <- concat_map, length_map. reflexivity.
Qed.

Lemma np_var3 (x y z : Q) : (np_var [x; y; z] == variance3 x y z)%Q.
Proof.
  unfold variance3. exactQ. field.
Qed.

(** Python's [min(1.0, max(0, x))] is the clamp to [0,1]. *)
Lemma py_clamp (x y : Q) :
  (x == y)%Q -> (py_min 1 (py_max 0 x) == Qmin 1 (Qmax 0 y))%Q.
Proof.
  intros Hxy. unfold py_min, py_max. cbn [ltb QNum].
  destruct (Q.max_spec 0 y) as [[H1 H2] | [H1 H2]];
    destruct (Q.min_spec 1 (Qmax 0 y)) as [[H3 H4] | [H3 H4]];
    rewrite H4; rewrite H2 in *;
    case_ltb 0%Q x; try case_ltb x 1%Q; try case_ltb 0%Q 1%Q; lra.
Qed.

Lemma clamp_range (x : Q) : (0 <= py_min 1 (py_max 0 x) <= 1)%Q.
Proof.
  unfold py_min, py_max. cbn [ltb QNum].
  case_ltb 0%Q x; [case_ltb x 1%Q | case_ltb 0%Q 1%Q]; lra.
Qed.

(** What [_check_grayscale_nature] returns on a three-channel array. *)
Lemma grayscale_three_channel (a : list (list (list Z))) :
  three_channel a = true ->
  exists s : Q,
    _check_grayscale_nature (Arr3 a) = Ok s /\
    (s == score_grayscale_spec (channel_mean_variance a))%Q.
Proof.
  intros Ha. unfold _check_grayscale_nature.
  rewrite !channel_three by (auto; lia). cbn [bind].
  rewrite !np_mean_u8_channel. eexists. split; [reflexivity |].
  unfold score_grayscale_spec, channel_mean_variance.
  cbn [of_Z sub div QNum]. apply py_clamp.
  rewrite np_var3. reflexivity.
Qed.

Lemma score_spec_below (v t : Q) :
  (0 < t)%Q -> (t <= 1)%Q ->
  (score_grayscale_spec v < t <-> (1 - t) * 1000 < v)%Q.
Proof.
  intros H0 H1. unfold score_grayscale_spec.
  destruct (Q.max_spec 0 (1 - v / 1000)) as [[H2 H3] | [H2 H3]];
    destruct (Q.min_spec 1 (Qmax 0 (1 - v / 1000))) as [[H4 H5] | [H4 H5]];
    rewrite H5; rewrite H3 in *; div_consts; split; intros; lra.
Qed.

#[export] Instance variance3_proper :
  Proper (Qeq ==> Qeq ==> Qeq ==> Qeq) variance3.
Proof.
  intros x x' Hx y y' Hy z z' Hz. unfold variance3.
  rewrite Hx, Hy, Hz. reflexivity.
Qed.

#[export] Instance score_grayscale_spec_proper :
  Proper (Qeq ==> Qeq) score_grayscale_spec.
Proof.
  intros v v' Hv. unfold score_grayscale_spec.
  destruct (Q.max_spec 0 (1 - v / 1000)) as [[H2 H3] | [H2 H3]];
    destruct (Q.min_spec 1 (Qmax 0 (1 - v / 1000))) as [[H4 H5] | [H4 H5]];
    destruct (Q.max_spec 0 (1 - v' / 1000)) as [[H6 H7] | [H6 H7]];
    destruct (Q.min_spec 1 (Qmax 0 (1 - v' / 1000))) as [[H8 H9] | [H8 H9]];
    rewrite H5, H9; rewrite H3, H7 in *; div_consts; lra.
Qed.

(** C4: on a three-channel image score_grayscale returns
    [max(0, 1 - v/1000)] clamped to [0,1], [v] being the variance of the
    three per-channel mean intensities; on a uniformly gray image it
    returns exactly 1. *)
Theorem grayscale_score_formula :
  forall a : list (list (list Z)),
    three_channel a = true ->
    (0 < pixel_count a)%nat ->
    exists s : Q,
      _check_grayscale_nature (Arr3 a) = Ok s /\
      (s == score_grayscale_spec (channel_mean_variance a))%Q /\
      (uniformly_gray a = true -> (s == 1)%Q).
Proof.
  intros a Ha _. destruct (grayscale_three_channel a Ha) as (s & Hs & Hv).
  exists s. split; [exact Hs | split; [exact Hv |]].
  intros Hg. rewrite Hv.
  assert (Hm : forall k, (k < 3)%nat -> channel_mean a k = channel_mean a 0).
  { intros k Hk. unfold channel_mean. do 2 f_equal. f_equal.
    apply map_ext_in. intros px Hp. apply in_concat in Hp.
    destruct Hp as (row & Hr & Hp). unfold uniformly_gray in Hg.
    rewrite forallb_forall in Hg. specialize (Hg row Hr).
    rewrite forallb_forall in Hg. specialize (Hg px Hp).
    destruct px as [| r [| g [| b [| ? ?]]]]; try discriminate.
    cbn [is_gray_px] in Hg. apply andb_true_iff in Hg. destruct Hg as [H1 H2].
    apply Z.eqb_eq in H1, H2. subst.
    destruct k as [| [| [| k]]]; cbn; try reflexivity; lia. }
  unfold channel_mean_variance. rewrite (Hm 1%nat), (Hm 2%nat) by lia.
  set (m := channel_mean a 0).
  assert (Hz : (variance3 m m m == 0)%Q) by (unfold variance3; field).
  rewrite Hz. reflexivity.
Qed.

Lemma grayscale_score_formula_witness :
  exists s : Q,
    _check_grayscale_nature (Arr3 gray2x2) = Ok s /\ (s == 1)%Q.
Proof.
  destruct (grayscale_score_formula gray2x2 eq_refl ltac:(cbn; lia))
    as (s & Hs & _ & Hg).
  exists s. split; [exact Hs | exact (Hg eq_refl)].
Defined.

(** C3 (as the code has it): on a non-empty three-channel image the score
    is below 0.3 exactly when the variance of the three channel means
    exceeds 700.  Randomising the channels independently does not make it
    so: their means nearly coincide. *)
Theorem grayscale_below_03_iff :
  forall a : list (list (list Z)),
    three_channel a = true ->
    (0 < pixel_count a)%nat ->
    exists s : Q,
      _check_grayscale_nature (Arr3 a) = Ok s /\
      ((s < 3 # 10)%Q <-> (700 < channel_mean_variance a)%Q).
Proof.
  intros a Ha _. destruct (grayscale_three_channel a Ha) as (s & Hs & Hv).
  exists s. split; [exact Hs |]. rewrite Hv.
  rewrite (score_spec_below _ (3 # 10)) by lra. split; intros; lra.
Qed.

Lemma grayscale_below_03_iff_witness :
  exists s : Q,
    _check_grayscale_nature (Arr3 (red_left_blue_right 1 1)) = Ok s /\
    (s < 3 # 10)%Q.
Proof.
  destruct (grayscale_below_03_iff (red_left_blue_right 1 1) eq_refl
              ltac:(cbn; lia)) as (s & Hs & Hlt).
  exists s. split; [exact Hs |]. apply Hlt. vm_compute. reflexivity.
Defined.

(** ** Red and blue halves *)

Lemma fold_add_acc (l : list Z) (acc : Z) :
  fold_left Z.add l acc = acc + fold_left Z.add l 0.
Proof.
  revert acc. induction l as [| x l IH]; intros acc; cbn [fold_left].
  - lia.
  - rewrite (IH (acc + x)), (IH (0 + x)). lia.
Qed.

Lemma forallb_concat {A} (p : A -> bool) (a : list (list A)) :
  forallb (forallb p) a = true -> forallb p (concat a) = true.
Proof.
  induction a as [| row a IH]; cbn [forallb concat]; [reflexivity |].
  rewrite forallb_app. intros H. apply andb_true_iff in H.
  destruct H as [H1 H2]. rewrite H1, (IH H2). reflexivity.
Qed.

Lemma is_red_px_eq (px : list Z) : is_red_px px = true -> px = [255; 0; 0].
Proof.
  destruct px as [| r [| g [| b [| ? ?]]]]; try discriminate.
  cbn [is_red_px]. rewrite !andb_true_iff, !Z.eqb_eq.
  intros [[-> ->] ->]. reflexivity.
Qed.

Lemma is_blue_px_eq (px : list Z) : is_blue_px px = true -> px = [0; 0; 255].
Proof.
  destruct px as [| r [| g [| b [| ? ?]]]]; try discriminate.
  cbn [is_blue_px]. rewrite !andb_true_iff, !Z.eqb_eq.
  intros [[-> ->] ->]. reflexivity.
Qed.

(** Channel totals of a list of pure-red and pure-blue pixels. *)
Lemma red_blue_totals (l : list (list Z)) :
  forallb (fun px => is_red_px px || is_blue_px px) l = true ->
  fold_left Z.add (map (fun px => nth 0 px 0) l) 0
    = 255 * Z.of_nat (length (List.filter is_red_px l)) /\
  fold_left Z.add (map (fun px => nth 1 px 0) l) 0 = 0 /\
  fold_left Z.add (map (fun px => nth 2 px 0) l) 0
    = 255 * Z.of_nat (length (List.filter is_blue_px l)) /\
  length l = (length (List.filter is_red_px l) + length (List.filter is_blue_px l))%nat.
Proof.
  induction l as [| px l IH]; [cbn; auto |].
  cbn [forallb]. intros H. apply andb_true_iff in H. destruct H as [Hp Hl].
  destruct (IH Hl) as (I0 & I1 & I2 & IL). clear IH.
  cbn [map fold_left List.filter].
  rewrite !(fold_add_acc _ (0 + _)), I0, I1, I2.
  apply orb_true_iff in Hp. destruct Hp as [Hp | Hp].
  - apply is_red_px_eq in Hp. subst px.
    change (is_red_px [255; 0; 0]) with true.
    change (is_blue_px [255; 0; 0]) with false.
    cbv iota. cbn [nth length]. rewrite IL. repeat split; lia.
  - apply is_blue_px_eq in Hp. subst px.
    change (is_red_px [0; 0; 255]) with false.
    change (is_blue_px [0; 0; 255]) with true.
    cbv iota. cbn [nth length]. rewrite IL. repeat split; lia.
Qed.

Lemma red_blue_three_channel (a : list (list (list Z))) :
  forallb (forallb (fun px => is_red_px px || is_blue_px px)) a = true ->
  three_channel a = true.
Proof.
  unfold three_channel. rewrite !forallb_forall. intros H row Hr.
  specialize (H row Hr). rewrite forallb_forall in *. intros px Hp.
  specialize (H px Hp). apply orb_true_iff in H.
  destruct H as [H | H]; [apply is_red_px_eq in H | apply is_blue_px_eq in H];
    subst px; reflexivity.
Qed.

Lemma half_ratio (n : nat) :
  (0 < n)%nat ->
  (inject_Z (255 * Z.of_nat n) / inject_Z (Z.of_nat (n + n)) == 255 # 2)%Q.
Proof.
  intros Hn. rewrite Nat2Z.inj_add, inject_Z_plus, inject_Z_mult.
  assert (Hq : (0 < inject_Z (Z.of_nat n))%Q).
  { change 0%Q with (inject_Z 0). rewrite <- Zlt_Qlt. lia. }
  set (q := inject_Z (Z.of_nat n)) in *.
  change (inject_Z 255) with 255%Q. field. lra.
Qed.

(** The channel means of an image split into red and blue halves. *)
Lemma red_blue_means (a : list (list (list Z))) :
  red_blue_halves a = true ->
  (channel_mean a 0 == 255 # 2)%Q /\ (channel_mean a 1 == 0)%Q /\
  (channel_mean a 2 == 255 # 2)%Q.
Proof.
  unfold red_blue_halves. rewrite !andb_true_iff.
  intros [[Hc Hn] Hp]. apply Nat.eqb_eq in Hn. apply Nat.ltb_lt in Hp.
  destruct (red_blue_totals (concat a) (forallb_concat _ _ Hc))
    as (T0 & T1 & T2 & TL).
  unfold count_px in Hn. unfold pixel_count in Hp.
  unfold channel_mean, pixel_count. rewrite T0, T1, T2, TL, <- Hn.
  assert (0 < length (List.filter is_red_px (concat a)))%nat by lia.
  split; [| split].
  - apply half_ratio. assumption.
  - reflexivity.
  - apply half_ratio. assumption.
Qed.

(** C5: an image made of a pure-red half and a pure-blue half scores
    strictly below 0.5 (the score is 0). *)
Theorem grayscale_red_blue_below_half :
  forall a : list (list (list Z)),
    red_blue_halves a = true ->
    exists s : Q,
      _check_grayscale_nature (Arr3 a) = Ok s /\ (s < 1 # 2)%Q /\ (s == 0)%Q.
Proof.
  intros a Ha.
  assert (H3 : three_channel a = true).
  { apply red_blue_three_channel. unfold red_blue_halves in Ha.
    rewrite !andb_true_iff in Ha. tauto. }
  destruct (grayscale_three_channel a H3) as (s & Hs & Hv).
  destruct (red_blue_means a Ha) as (M0 & M1 & M2).
  assert (Hz : (s == 0)%Q).
  { rewrite Hv. unfold channel_mean_variance. rewrite M0, M1, M2.
    vm_compute. reflexivity. }
  exists s. split; [exact Hs | split; [| exact Hz]]. rewrite Hz. reflexivity.
Qed.

Lemma grayscale_red_blue_below_half_witness :
  exists s : Q,
    _check_grayscale_nature (Arr3 (red_left_blue_right 4 3)) = Ok s /\
    (s < 1 # 2)%Q /\ (s == 0)%Q.
Proof.
  exact (grayscale_red_blue_below_half (red_left_blue_right 4 3) eq_refl).
Defined.

(** The same image in binary64: the score is 0. *)
Example grayscale_red_blue_binary64 :
  _check_grayscale_nature (T := float) (Arr3 (red_left_blue_right 4 3))
    = Ok (of_Z 0).
Proof. reflexivity. Qed.

(** A gray image in binary64: the score is 1. *)
Example grayscale_gray_binary64 :
  _check_grayscale_nature (T := float) (Arr3 gray2x2) = Ok (of_Z 1).
Proof. reflexivity. Qed.

(** ** The pseudo-random image *)

Lemma row_stack_channels (rr gr br : list Z) :
  length gr = length rr -> length br = length rr ->
  map (fun px => nth 0 px 0) (row_stack rr gr br) = rr /\
  map (fun px => nth 1 px 0) (row_stack rr gr br) = gr /\
  map (fun px => nth 2 px 0) (row_stack rr gr br) = br.
Proof.
  unfold row_stack. revert gr br.
  induction rr as [| x rr IH]; intros [| y gr] [| z br] Hg Hb;
    try discriminate; [repeat split |].
  cbn [combine map nth fst snd].
  destruct (IH gr br) as (I0 & I1 & I2); [cbn in Hg; lia | cbn in Hb; lia |].
  rewrite I0, I1, I2. repeat split.
Qed.

Lemma dstack_planes (h w : nat) (r g b : plane) :
  rect h w r -> rect h w g -> rect h w b ->
  map (map (fun px => nth 0 px 0)) (dstack r g b) = r /\
  map (map (fun px => nth 1 px 0)) (dstack r g b) = g /\
  map (map (fun px => nth 2 px 0)) (dstack r g b) = b.
Proof.
  unfold dstack, rect. revert h g b.
  induction r as [| rr r IH]; intros h [| gr g] [| br b] [Hr Fr] [Hg Fg] [Hb Fb];
    cbn [length] in *; try lia; [repeat split |].
  cbn [combine map fst snd].
  inversion Fr; inversion Fg; inversion Fb; subst.
  destruct (row_stack_channels rr gr br) as (R0 & R1 & R2); [lia | lia |].
  destruct (IH (length r) g b) as (I0 & I1 & I2); [split; auto; lia ..|].
  fold (row_stack rr gr br). rewrite R0, R1, R2, I0, I1, I2. repeat split.
Qed.

Lemma dstack_three_channel (r g b : plane) :
  three_channel (dstack r g b) = true.
Proof.
  unfold three_channel, dstack. rewrite forallb_forall. intros row Hrow.
  apply in_map_iff in Hrow. destruct Hrow as (rows & <- & _).
  rewrite forallb_forall. intros px Hpx.
  apply in_map_iff in Hpx. destruct Hpx as (p & <- & _). reflexivity.
Qed.

Lemma lcg_sample_bound (mult incr x : int) :
  0 <= Uint63.to_Z (Uint63.lsr (lcg mult incr x) 24) <= 255.
Proof.
  unfold lcg. rewrite Uint63.lsr_spec, Uint63.land_spec'.
  change (Uint63.to_Z 4294967295) with (Z.ones 32).
  change (Uint63.to_Z 24) with 24.
  rewrite Z.land_ones by lia.
  set (v := Uint63.to_Z (Uint63.add (Uint63.mul mult x) incr)).
  assert (Hm : 0 <= v mod 2 ^ 32 < 2 ^ 32) by (apply Z.mod_pos_bound; lia).
  change (2 ^ 32) with 4294967296 in *. change (2 ^ 24) with 16777216.
  split; [apply Z.div_pos; lia |].
  apply Z.lt_succ_r. apply Z.div_lt_upper_bound; lia.
Qed.

Lemma lcg_row_spec (mult incr : int) (n : nat) (x acc : int) :
  length (fst (lcg_row mult incr n x)) = n /\
  0 <= fold_left Z.add (fst (lcg_row mult incr n x)) 0 <= 255 * Z.of_nat n /\
  (Uint63.to_Z acc + 255 * Z.of_nat n < Uint63.wB ->
   snd (lcg_row_total mult incr n x acc) = snd (lcg_row mult incr n x) /\
   Uint63.to_Z (fst (lcg_row_total mult incr n x acc))
   = Uint63.to_Z acc + fold_left Z.add (fst (lcg_row mult incr n x)) 0).
Proof.
  revert x acc. induction n as [| n IH]; intros x acc.
  - cbn. repeat split; lia.
  - cbn [lcg_row lcg_row_total].
    pose proof (lcg_sample_bound mult incr x) as Hs.
    set (v := Uint63.lsr (lcg mult incr x) 24) in *.
    destruct (IH (lcg mult incr x) (Uint63.add acc v)) as (IL & IB & IT).
    destruct (lcg_row mult incr n (lcg mult incr x)) as [r x'].
    cbn [fst snd length fold_left] in *.
    rewrite (fold_add_acc r (0 + _)).
    split; [lia | split; [lia |]]. intros Hacc.
    pose proof (Uint63.to_Z_bounded acc) as Ha.
    assert (Hadd : Uint63.to_Z (Uint63.add acc v)
                   = Uint63.to_Z acc + Uint63.to_Z v).
    { rewrite Uint63.add_spec. apply Z.mod_small. lia. }
    assert (Hpre : Uint63.to_Z (Uint63.add acc v) + 255 * Z.of_nat n
                   < Uint63.wB) by lia.
    destruct (IT Hpre) as [I1 I2]. rewrite I1, I2, Hadd.
    split; [reflexivity | lia].
Qed.

Lemma lcg_plane_spec (mult incr : int) (h w : nat) (x acc : int) :
  rect h w (lcg_plane mult incr h w x) /\
  length (concat (lcg_plane mult incr h w x)) = (h * w)%nat /\
  0 <= fold_left Z.add (concat (lcg_plane mult incr h w x)) 0
    <= 255 * Z.of_nat (h * w) /\
  (Uint63.to_Z acc + 255 * Z.of_nat (h * w) < Uint63.wB ->
   Uint63.to_Z (lcg_plane_total mult incr h w x acc)
   = Uint63.to_Z acc + fold_left Z.add (concat (lcg_plane mult incr h w x)) 0).
Proof.
  unfold rect. revert x acc. induction h as [| h IH]; intros x acc.
  - cbn. repeat split; first [constructor | lia].
  - cbn [lcg_plane lcg_plane_total].
    destruct (lcg_row_spec mult incr w x acc) as (RL & RB & RT).
    destruct (lcg_row_total mult incr w x acc) as [acc' x1].
    destruct (lcg_row mult incr w x) as [row x'].
    cbn [fst snd] in *.
    destruct (IH x' acc') as ((PL & PF) & PC & PB & PT).
    cbn [concat length].
    rewrite length_app, fold_left_app, PC, RL.
    rewrite (fold_add_acc _ (fold_left Z.add row 0)).
    assert (Hn : Z.of_nat (S h * w) = Z.of_nat w + Z.of_nat (h * w)) by lia.
    repeat split; try lia; [constructor; assumption |].
    intros Hacc.
    assert (Hpre : Uint63.to_Z acc + 255 * Z.of_nat w < Uint63.wB) by lia.
    destruct (RT Hpre) as [R1 R2]. subst x1.
    rewrite PT by lia. lia.
Qed.

(** The channel mean of a generated plane, from the running total. *)
Lemma np_mean_u8_lcg {T} `{Num T} (mult incr : int) (h w : nat) (x : int) :
  255 * Z.of_nat (h * w) < Uint63.wB ->
  np_mean_u8 (lcg_plane mult incr h w x)
  = div (of_Z (Uint63.to_Z (lcg_plane_total mult incr h w x 0)))
        (of_Z (Z.of_nat (h * w))).
Proof.
  intros Hn. unfold np_mean_u8.
  destruct (lcg_plane_spec mult incr h w x 0) as (_ & PC & _ & PT).
  rewrite PC, PT by (change (Uint63.to_Z 0) with 0; lia).
  reflexivity.
Qed.

(** The grayscale score of the pseudo-random image, from the three
    running totals. *)
Lemma random_rgb_score {T} `{Num T} (h w : nat) :
  255 * Z.of_nat (h * w) < Uint63.wB ->
  length (random_rgb h w) = h /\
  forallb (fun row => (length row =? w)%nat) (random_rgb h w) = true /\
  three_channel (random_rgb h w) = true /\
  _check_grayscale_nature (Arr3 (random_rgb h w))
  = Ok (score_of_totals (Z.of_nat (h * w))
          (Uint63.to_Z (lcg_plane_total 1664525 1013904223 h w 2024 0))
          (Uint63.to_Z (lcg_plane_total 22695477 1 h w 7 0))
          (Uint63.to_Z (lcg_plane_total 214013 2531011 h w 99 0))).
Proof.
  intros Hn. unfold random_rgb.
  set (r := lcg_plane 1664525 1013904223 h w 2024).
  set (g := lcg_plane 22695477 1 h w 7).
  set (b := lcg_plane 214013 2531011 h w 99).
  assert (Rr : rect h w r) by apply (lcg_plane_spec _ _ _ _ _ 0).
  assert (Rg : rect h w g) by apply (lcg_plane_spec _ _ _ _ _ 0).
  assert (Rb : rect h w b) by apply (lcg_plane_spec _ _ _ _ _ 0).
  destruct (dstack_planes h w r g b Rr Rg Rb) as (P0 & P1 & P2).
  assert (H3 := dstack_three_channel r g b).
  split; [| split; [| split; [exact H3 |]]].
  - transitivity (length (map (map (fun px => nth 0 px 0)) (dstack r g b)));
      [symmetry; apply length_map | rewrite P0; exact (proj1 Rr)].
  - rewrite forallb_forall. intros row Hrow. apply Nat.eqb_eq.
    assert (Hin : In (map (fun px => nth 0 px 0) row) r).
    { rewrite <- P0. apply in_map. exact Hrow. }
    destruct Rr as [_ Fr]. rewrite List.Forall_forall in Fr.
    specialize (Fr _ Hin). rewrite length_map in Fr. exact Fr.
  - unfold _check_grayscale_nature.
    rewrite !channel_three by (auto; lia). cbn [bind].
    rewrite P0, P1, P2. subst r g b. rewrite !np_mean_u8_lcg by exact Hn.
    reflexivity.
Qed.

(** The channel totals of the 512 x 512 image; the means are 127.49,
    127.55 and 127.40. *)
Lemma random_totals :
  Uint63.to_Z (lcg_plane_total 1664525 1013904223 512 512 2024 0)
    = 33420977 /\
  Uint63.to_Z (lcg_plane_total 22695477 1 512 512 7 0) = 33435513 /\
  Uint63.to_Z (lcg_plane_total 214013 2531011 512 512 99 0) = 33397832.
Proof.
  split; [| split]; vm_compute; reflexivity.
Qed.

(** A 512 x 512 image with independently randomised channels scores above
    0.99, in exact arithmetic and in binary64. *)
Lemma random_rgb_scores_high :
  length (random_rgb 512 512) = 512%nat /\
  forallb (fun row => (length row =? 512)%nat) (random_rgb 512 512) = true /\
  three_channel (random_rgb 512 512) = true /\
  (exists s : Q,
      _check_grayscale_nature (Arr3 (random_rgb 512 512)) = Ok s /\
      (99 # 100 < s)%Q /\ ~ (s < 3 # 10)%Q) /\
  (exists s : float,
      _check_grayscale_nature (Arr3 (random_rgb 512 512)) = Ok s /\
      ltb (lit 99 100) s = true /\ ltb s (lit 3 10) = false).
Proof.
  assert (Hn : 255 * Z.of_nat (512 * 512) < Uint63.wB)
    by (vm_compute; reflexivity).
  destruct (random_rgb_score (T := Q) 512 512 Hn) as (HL & HW & H3 & HQ).
  destruct (random_rgb_score (T := float) 512 512 Hn) as (_ & _ & _ & HF).
  destruct random_totals as (T1 & T2 & T3). rewrite T1, T2, T3 in HQ, HF.
  split; [exact HL | split; [exact HW | split; [exact H3 | split]]].
  - eexists. split; [exact HQ |].
    split; [vm_compute; reflexivity | vm_compute; discriminate].
  - eexists. split; [exact HF |]. split; vm_compute; reflexivity.
Qed.


(** ** Ranges of the five scores *)

Lemma grayscale_range (image : ndarray) (v : Q) :
  _check_grayscale_nature image = Ok v -> (0 <= v <= 1)%Q.
Proof.
  destruct image as [a | a]; cbn [_check_grayscale_nature].
  - intros [= <-]. lits. lra.
  - destruct (channel a 0); cbn [bind]; [| discriminate].
    destruct (channel a 1); cbn [bind]; [| discriminate].
    destruct (channel a 2); cbn [bind]; [| discriminate].
    intros [= <-]. apply clamp_range.
Qed.

Lemma contrast_values (sq : Sqrt Q) (cv : Cv2 Q) (gray : plane) (v : Q) :
  _analyze_contrast_patterns gray = Ok v ->
  v = (8 # 10)%Q \/ v = (6 # 10)%Q \/ v = (3 # 10)%Q.
Proof.
  unfold _analyze_contrast_patterns.
  destruct (filter2D _ _); cbn [bind]; [| discriminate].
  intros [= <-]. exact (contrast_tier_values (T := Q) _).
Qed.

Lemma shape_values (cv : Cv2 Q) (gray : plane) (v : Q) :
  _analyze_breast_shape_patterns gray = Ok v ->
  v = (7 # 10)%Q \/ v = (6 # 10)%Q \/ v = (4 # 10)%Q.
Proof. exact (shape_score_values (T := Q) gray v). Qed.

Lemma artifact_values {T} `{Num T} (gray : plane) :
  _check_medical_artifacts gray = Ok (lit 7 10) \/
  _check_medical_artifacts gray = Ok (lit 4 10).
Proof.
  unfold _check_medical_artifacts. destruct (ltb _ _); auto.
Qed.

Lemma histogram_values {T} `{Num T} `{Cv2 T} (gray : plane) (v : T) :
  _analyze_histogram_patterns gray = Ok v ->
  v = lit 8 10 \/ v = lit 5 10.
Proof.
  unfold _analyze_histogram_patterns.
  destruct (calcHist _); cbn [bind]; [| discriminate].
  destruct (GaussianBlur _); cbn [bind]; [| discriminate].
  destruct (_ && _); intros [= <-]; auto.
Qed.

(** Steps through the body of the [try], one scorer call at a time. *)
Ltac run_body :=
  unfold _check_mammography_characteristics, analysis_body, bindM, lift,
    set_characteristic, set_confidence, set_is_mammography, retM,
    initial_result;
  cbn [fst snd is_mammography confidence characteristics].

Ltac case_scorer c H :=
  destruct c eqn:H;
  cbn [fst snd is_mammography confidence characteristics].

(** The bounds of the five scores, from the equations of a completed run. *)
Ltac score_bounds Eg Ec Es Ea Eh :=
  apply grayscale_range in Eg; apply contrast_values in Ec;
  apply shape_values in Es; apply histogram_values in Eh;
  match type of Ea with
  | _check_medical_artifacts ?gray = Ok _ =>
      destruct (artifact_values (T := Q) gray) as [Ha | Ha];
      rewrite Ha in Ea; clear Ha; injection Ea as <-
  end;
  lits.

Lemma mean5_bounds (g c s a h : Q) :
  (0 <= g <= 1)%Q ->
  c = (8 # 10)%Q \/ c = (6 # 10)%Q \/ c = (3 # 10)%Q ->
  s = (7 # 10)%Q \/ s = (6 # 10)%Q \/ s = (4 # 10)%Q ->
  a = (7 # 10)%Q \/ a = (4 # 10)%Q ->
  h = (8 # 10)%Q \/ h = (5 # 10)%Q ->
  (3 # 10 <= c <= 8 # 10)%Q /\ (4 # 10 <= s <= 7 # 10)%Q /\
  (4 # 10 <= a <= 7 # 10)%Q /\ (5 # 10 <= h <= 8 # 10)%Q /\
  (32 # 100 <= fst (aggregate [g; c; s; a; h]) <= 8 # 10)%Q /\
  (snd (aggregate [g; c; s; a; h]) = true ->
   (35 # 10 < g + c + s + a + h)%Q /\ (1 # 2 < g)%Q).
Proof.
  intros Hg Hc Hs Ha Hh.
  assert (Bc : (3 # 10 <= c <= 8 # 10)%Q)
    by (destruct Hc as [-> | [-> | ->]]; lra).
  assert (Bs : (4 # 10 <= s <= 7 # 10)%Q)
    by (destruct Hs as [-> | [-> | ->]]; lra).
  assert (Ba : (4 # 10 <= a <= 7 # 10)%Q) by (destruct Ha as [-> | ->]; lra).
  assert (Bh : (5 # 10 <= h <= 8 # 10)%Q) by (destruct Hh as [-> | ->]; lra).
  repeat (split; [tauto |]).
  assert (Hm := aggregate_confidence g c s a h).
  unfold mean5 in Hm. div_consts.
  split; [lra |].
  intros Hv. apply aggregate_verdict in Hv. lra.
Qed.

Lemma contrast_range (sq : Sqrt Q) (cv : Cv2 Q) (gray : plane) (v : Q) :
  _analyze_contrast_patterns gray = Ok v -> (0 <= v <= 1)%Q.
Proof.
  intros E. apply contrast_values in E. destruct E as [-> | [-> | ->]]; lra.
Qed.

Lemma shape_range (cv : Cv2 Q) (gray : plane) (v : Q) :
  _analyze_breast_shape_patterns gray = Ok v -> (0 <= v <= 1)%Q.
Proof.
  intros E. apply shape_values in E. destruct E as [-> | [-> | ->]]; lra.
Qed.

Lemma artifact_range (gray : plane) (v : Q) :
  _check_medical_artifacts gray = Ok v -> (0 <= v <= 1)%Q.
Proof.
  intros E. destruct (artifact_values (T := Q) gray) as [Ha | Ha];
    rewrite Ha in E; injection E as <-; lits; lra.
Qed.

Lemma histogram_range (cv : Cv2 Q) (gray : plane) (v : Q) :
  _analyze_histogram_patterns gray = Ok v -> (0 <= v <= 1)%Q.
Proof.
  intros E. apply histogram_values in E.
  lits. destruct E as [-> | ->]; lra.
Qed.

(** ** The analysis as a whole *)

Lemma analysis_completed (sq : Sqrt Q) (cv : Cv2 Q) (image : ndarray)
      (gray : plane) (g c s a h : Q) :
  to_gray image = Ok gray ->
  _check_grayscale_nature image = Ok g ->
  _analyze_contrast_patterns gray = Ok c ->
  _analyze_breast_shape_patterns gray = Ok s ->
  _check_medical_artifacts gray = Ok a ->
  _analyze_histogram_patterns gray = Ok h ->
  analysis_body image initial_result = (completed g c s a h, Ok tt).
Proof.
  intros Hg Eg Ec Es Ea Eh. run_body.
  rewrite Hg, Eg, Ec, Es, Ea, Eh.
  cbn [fst snd is_mammography confidence characteristics].
  unfold completed. destruct (snd (aggregate _)); reflexivity.
Qed.

Lemma analysis_completes_inv (sq : Sqrt Q) (cv : Cv2 Q) (image : ndarray) :
  snd (analysis_body image initial_result) = Ok tt ->
  exists (gray : plane) (g c s a h : Q),
    to_gray image = Ok gray /\
    _check_grayscale_nature image = Ok g /\
    _analyze_contrast_patterns gray = Ok c /\
    _analyze_breast_shape_patterns gray = Ok s /\
    _check_medical_artifacts gray = Ok a /\
    _analyze_histogram_patterns gray = Ok h.
Proof.
  run_body.
  case_scorer (to_gray image) E0; [| intros H; cbv [snd] in H; discriminate H].
  case_scorer (_check_grayscale_nature (T := Q) image) Eg; [| intros H; cbv [snd] in H; discriminate H].
  case_scorer (_analyze_contrast_patterns a) Ec; [| intros H; cbv [snd] in H; discriminate H].
  case_scorer (_analyze_breast_shape_patterns a) Es; [| intros H; cbv [snd] in H; discriminate H].
  case_scorer (_check_medical_artifacts (T := Q) a) Ea; [| intros H; cbv [snd] in H; discriminate H].
  case_scorer (_analyze_histogram_patterns a) Eh; [| intros H; cbv [snd] in H; discriminate H].
  intros _. do 6 eexists. repeat split; eassumption.
Qed.

(** Splits a lookup in a dictionary built by successive assignments. *)
Ltac lookup_cases H :=
  repeat (apply lookup_insert_Some in H; destruct H as [[<- <-] | [_ H]]);
  try (rewrite lookup_empty in H; discriminate H).

(** C8: each of the five sub-scores and the aggregated confidence lie in
    the closed interval [0,1]. *)
Theorem scores_in_unit_interval :
  forall (sq : Sqrt Q) (cv : Cv2 Q) (image : ndarray),
    let r := _check_mammography_characteristics image in
    (forall v, _check_grayscale_nature image = Ok v -> (0 <= v <= 1)%Q) /\
    (forall gray v,
        _analyze_contrast_patterns gray = Ok v -> (0 <= v <= 1)%Q) /\
    (forall gray v,
        _analyze_breast_shape_patterns gray = Ok v -> (0 <= v <= 1)%Q) /\
    (forall gray v,
        _check_medical_artifacts gray = Ok v -> (0 <= v <= 1)%Q) /\
    (forall gray v,
        _analyze_histogram_patterns gray = Ok v -> (0 <= v <= 1)%Q) /\
    (forall key v, characteristics r !! key = Some v -> (0 <= v <= 1)%Q) /\
    (0 <= confidence r <= 1)%Q.
Proof.
  intros sq cv image r.
  split; [apply grayscale_range |].
  split; [apply contrast_range |].
  split; [apply shape_range |].
  split; [apply artifact_range |].
  split; [apply histogram_range |].
  subst r. run_body.
  case_scorer (to_gray image) E0;
    [| split; [intros key v H; lookup_cases H | lits; lra]].
  case_scorer (_check_grayscale_nature (T := Q) image) Eg;
    [apply grayscale_range in Eg
    | split; [intros key v H; lookup_cases H | lits; lra]].
  case_scorer (_analyze_contrast_patterns a) Ec;
    [apply contrast_range in Ec
    | split; [intros key v H; lookup_cases H; assumption
             | lits; lra]].
  case_scorer (_analyze_breast_shape_patterns a) Es;
    [apply shape_range in Es
    | split; [intros key v H; lookup_cases H; assumption
             | lits; lra]].
  case_scorer (_check_medical_artifacts (T := Q) a) Ea;
    [apply artifact_range in Ea
    | split; [intros key v H; lookup_cases H; assumption
             | lits; lra]].
  case_scorer (_analyze_histogram_patterns a) Eh;
    [apply histogram_range in Eh
    | split; [intros key v H; lookup_cases H; assumption
             | lits; lra]].
  assert (Hc : (0 <= fst (aggregate [a0; a1; a2; a3; a4]) <= 1)%Q).
  { rewrite aggregate_confidence. unfold mean5. div_consts. lra. }
  destruct (snd (aggregate _));
    cbn [fst snd is_mammography confidence characteristics];
    (split; [intros key v H; lookup_cases H; assumption | exact Hc]).
Qed.

Lemma scores_in_unit_interval_witness :
  (0 <= confidence (@_check_mammography_characteristics Q _ Qsqrt3 dbl
                      (Arr2 strip)) <= 1)%Q /\
  (0 <= 7 # 10 <= 1)%Q.
Proof.
  split.
  - exact (proj2 (proj2 (proj2 (proj2 (proj2 (proj2
             (scores_in_unit_interval Qsqrt3 dbl (Arr2 strip)))))))).
  - refine (proj1 (proj2 (proj2 (proj2
             (scores_in_unit_interval Qsqrt3 dbl (Arr2 strip)))))
             strip (7 # 10)%Q _).
    vm_compute. reflexivity.
Defined.

Lemma completed_lookups (g c s a h : Q) :
  characteristics (completed g c s a h) !! "grayscale_score" = Some g /\
  characteristics (completed g c s a h) !! "contrast_score" = Some c /\
  characteristics (completed g c s a h) !! "shape_score" = Some s /\
  characteristics (completed g c s a h) !! "artifact_score" = Some a /\
  characteristics (completed g c s a h) !! "histogram_score" = Some h.
Proof.
  unfold completed. cbn [characteristics].
  repeat split; repeat (rewrite lookup_insert_ne by discriminate);
    apply lookup_insert_eq.
Qed.

(** An exception anywhere in the body leaves the initial confidence and
    verdict, and no histogram score. *)
Lemma analysis_raised (sq : Sqrt Q) (cv : Cv2 Q) (image : ndarray) (e : exn) :
  snd (analysis_body image initial_result) = Raise e ->
  confidence (_check_mammography_characteristics image) = 0%Q /\
  is_mammography (_check_mammography_characteristics image) = false /\
  characteristics (_check_mammography_characteristics image)
    !! "histogram_score" = None.
Proof.
  run_body.
  case_scorer (to_gray image) E0; [| intros _; repeat split].
  case_scorer (_check_grayscale_nature (T := Q) image) Eg;
    [| intros _; repeat split].
  case_scorer (_analyze_contrast_patterns a) Ec; [| intros _; repeat split].
  case_scorer (_analyze_breast_shape_patterns a) Es;
    [| intros _; repeat split].
  case_scorer (_check_medical_artifacts (T := Q) a) Ea;
    [| intros _; repeat split].
  case_scorer (_analyze_histogram_patterns a) Eh; [| intros _; repeat split].
  destruct (snd (aggregate _)); cbn [snd]; discriminate.
Qed.

(** C9: a True verdict forces the grayscale sub-score above 0.5: the other
    four sub-scores are at most 0.8, 0.7, 0.7 and 0.8, while the five
    scores must sum to more than 3.5. *)
Theorem verdict_needs_grayscale :
  forall (sq : Sqrt Q) (cv : Cv2 Q) (image : ndarray),
    let r := _check_mammography_characteristics image in
    is_mammography r = true ->
    exists g c s a h : Q,
      _check_grayscale_nature image = Ok g /\
      characteristics r !! "grayscale_score" = Some g /\
      characteristics r !! "contrast_score" = Some c /\
      characteristics r !! "shape_score" = Some s /\
      characteristics r !! "artifact_score" = Some a /\
      characteristics r !! "histogram_score" = Some h /\
      (c <= 8 # 10)%Q /\ (s <= 7 # 10)%Q /\ (a <= 7 # 10)%Q /\
      (h <= 8 # 10)%Q /\
      (35 # 10 < g + c + s + a + h)%Q /\
      (1 # 2 < g)%Q.
Proof.
  intros sq cv image r Hv.
  destruct (snd (analysis_body image initial_result)) as [[] | e] eqn:Hrun.
  - destruct (analysis_completes_inv sq cv image Hrun)
      as (gray & g & c & s & a & h & E0 & Eg & Ec & Es & Ea & Eh).
    assert (Hr : r = completed g c s a h).
    { subst r. unfold _check_mammography_characteristics.
      rewrite (analysis_completed sq cv image gray g c s a h) by assumption.
      reflexivity. }
    rewrite Hr in *. cbn [is_mammography completed] in Hv.
    destruct (completed_lookups g c s a h) as (L1 & L2 & L3 & L4 & L5).
    exists g, c, s, a, h.
    split; [exact Eg |]. do 5 (split; [assumption |]).
    score_bounds Eg Ec Es Ea Eh.
    + destruct (mean5_bounds g c s (7 # 10) h) as (B1 & B2 & B3 & B4 & _ & B6);
        auto.
      destruct (B6 Hv). repeat split; lra.
    + destruct (mean5_bounds g c s (4 # 10) h) as (B1 & B2 & B3 & B4 & _ & B6);
        auto.
      destruct (B6 Hv). repeat split; lra.
  - destruct (analysis_raised sq cv image e Hrun) as (_ & Hf & _).
    subst r. rewrite Hf in Hv. discriminate.
Qed.

Lemma verdict_needs_grayscale_witness :
  exists g : Q,
    @_check_grayscale_nature Q _ (Arr2 strip) = Ok g /\ (1 # 2 < g)%Q.
Proof.
  destruct (verdict_needs_grayscale Qsqrt3 dbl (Arr2 strip))
    as (g & c & s & a & h & Eg & _ & _ & _ & _ & _ & _ & _ & _ & _ & _ & Hg).
  - vm_compute. reflexivity.
  - exists g. split; assumption.
Defined.

(** C10: when all five sub-scorers complete without raising, the
    confidence lies in [0.32, 0.8]: the sub-scores other than grayscale lie
    in [0.3, 0.8], [0.4, 0.7], [0.4, 0.7] and [0.5, 0.8], and the grayscale
    sub-score in [0, 1]. *)
Theorem completed_confidence_range :
  forall (sq : Sqrt Q) (cv : Cv2 Q) (image : ndarray),
    let r := _check_mammography_characteristics image in
    snd (analysis_body image initial_result) = Ok tt ->
    (exists g c s a h : Q,
        characteristics r !! "grayscale_score" = Some g /\
        characteristics r !! "contrast_score" = Some c /\
        characteristics r !! "shape_score" = Some s /\
        characteristics r !! "artifact_score" = Some a /\
        characteristics r !! "histogram_score" = Some h /\
        (0 <= g <= 1)%Q /\ (3 # 10 <= c <= 8 # 10)%Q /\
        (4 # 10 <= s <= 7 # 10)%Q /\ (4 # 10 <= a <= 7 # 10)%Q /\
        (5 # 10 <= h <= 8 # 10)%Q /\
        (confidence r == (g + c + s + a + h) / 5)%Q) /\
    (32 # 100 <= confidence r <= 8 # 10)%Q.
Proof.
  intros sq cv image r Hrun.
  destruct (analysis_completes_inv sq cv image Hrun)
    as (gray & g & c & s & a & h & E0 & Eg & Ec & Es & Ea & Eh).
  assert (Hr : r = completed g c s a h).
  { subst r. unfold _check_mammography_characteristics.
    rewrite (analysis_completed sq cv image gray g c s a h) by assumption.
    reflexivity. }
  rewrite Hr. cbn [confidence completed].
  destruct (completed_lookups g c s a h) as (L1 & L2 & L3 & L4 & L5).
  cbn [characteristics completed] in *.
  score_bounds Eg Ec Es Ea Eh.
  - destruct (mean5_bounds g c s (7 # 10) h) as (B1 & B2 & B3 & B4 & B5 & _);
      auto.
    split; [| exact B5]. exists g, c, s, (7 # 10)%Q, h.
    do 5 (split; [assumption |]).
    repeat (split; [tauto |]). apply aggregate_confidence.
  - destruct (mean5_bounds g c s (4 # 10) h) as (B1 & B2 & B3 & B4 & B5 & _);
      auto.
    split; [| exact B5]. exists g, c, s, (4 # 10)%Q, h.
    do 5 (split; [assumption |]).
    repeat (split; [tauto |]). apply aggregate_confidence.
Qed.

Lemma completed_confidence_range_witness :
  (32 # 100 <=
   confidence (@_check_mammography_characteristics Q _ Qsqrt3 dbl (Arr2 strip))
   <= 8 # 10)%Q.
Proof.
  refine (proj2 (completed_confidence_range Qsqrt3 dbl (Arr2 strip) _)).
  vm_compute. reflexivity.
Defined.

(** ** Exceptions inside the analysis *)





(** Whatever OpenCV does with it, a two-channel array ends the analysis
    before anything is recorded: if the gray conversion does not raise,
    [image[:,:,2]] does. *)
Lemma two_channel_always_aborts (sq : Sqrt Q) (cv : Cv2 Q) :
  _check_mammography_characteristics two_channel = initial_result.
Proof.
  run_body. destruct (to_gray two_channel); reflexivity.
Qed.


(** ** Binary64 runs *)

(** The literal 0.72 of the aggregate example is the double nearest to
    72/100. *)
Example lit_072_binary64 : lit (T := float) 72 100 = 0x1.70a3d70a3d70ap-1%float.
Proof. reflexivity. Qed.

Example binary64_grid : binary64_grid_check = true.
Proof. vm_compute. reflexivity. Qed.

(** A NaN contrast deviation falls in the lowest tier. *)
Example contrast_tier_nan : contrast_tier nan = lit (T := float) 3 10.
Proof. reflexivity. Qed.

(** The whole analysis in binary64 on the 1 x 3 strip: every scorer at its
    top tier, confidence 0.8, verdict True. *)
Example strip_analysis_binary64 :
  let r := @_check_mammography_characteristics float _ _
             (cv2_double (fun x => x) (Some [(of_Z 1, of_Z 1, of_Z 1)]) [])
             (Arr2 strip) in
  is_mammography r = true /\ confidence r = lit 8 10.
Proof. vm_compute. split; reflexivity. Qed.

(** * More of the validator *)

(** ** File checks *)

Lemma supported_In (ext : string) :
  existsb (String.eqb ext) supported_formats = true <->
  In ext supported_formats.
Proof.
  rewrite existsb_exists. split.
  - intros (x & Hx & He). apply String.eqb_eq in He. subst. exact Hx.
  - intros Hx. exists ext. split; [exact Hx | apply String.eqb_refl].
Qed.

(** X1: a file passes [_validate_basic_properties] exactly when it exists,
    its extension is one of the five supported ones whatever its letter
    case, and its size is between 1 KiB and 50 MiB, both included. *)
Theorem basic_valid_iff :
  forall (T : Type) (F : Files) (image_path : string),
    b_is_valid (_validate_basic_properties (T := T) image_path) = true <->
    path_exists image_path = true /\
    In (lower (path_suffix image_path)) supported_formats /\
    1024 <= path_size image_path <= 50 * 1024 * 1024.
Proof.
  intros T F p. unfold _validate_basic_properties. rewrite <- supported_In.
  change (50 * 1024 * 1024) with max_file_size.
  destruct (path_exists p); cbn [negb];
    [| cbn [b_is_valid]; split; [discriminate | intros [? _]; discriminate]].
  destruct (existsb _ supported_formats); cbn [negb];
    destruct (Z.ltb_spec max_file_size (path_size p));
    destruct (Z.ltb_spec (path_size p) 1024);
    cbn [b_is_valid b_errors]; split;
    try discriminate; try (intros (_ & Hf & Hs); try discriminate; lia);
    intros _; repeat split; lia.
Qed.

(** X2: [_validate_basic_properties] reports an error exactly when it
    rejects the file; a missing file gives the single error "File does not exist"
    and no other check; an existing file gives at most two errors, because
    "too large" and "too small" exclude each other. *)
Theorem basic_errors_shape :
  forall (T : Type) (F : Files) (image_path : string),
    let r := _validate_basic_properties (T := T) image_path in
    (b_is_valid r = true <-> b_errors r = []) /\
    (path_exists image_path = false -> b_errors r = [FileDoesNotExist]) /\
    (path_exists image_path = true -> ~ In FileDoesNotExist (b_errors r)) /\
    (length (b_errors r) <= 2)%nat /\
    (forall size, In (FileTooLarge size) (b_errors r) ->
                  ~ In FileTooSmall (b_errors r)).
Proof.
  intros T F p r. subst r. unfold _validate_basic_properties.
  unfold max_file_size.
  destruct (path_exists p); cbn [negb].
  - destruct (existsb _ supported_formats); cbn [negb];
      destruct (Z.ltb_spec (50 * 1024 * 1024) (path_size p));
      destruct (Z.ltb_spec (path_size p) 1024);
      cbn [b_is_valid b_errors app length];
      repeat split; try discriminate; try reflexivity; try lia;
      try (intros _; cbn [In]; intuition discriminate);
      try (intros size; cbn [In]; intuition (try discriminate; lia)).
  - cbn [b_is_valid b_errors length].
    repeat split; try discriminate; try lia.
    intros size [Hs | []]. discriminate.
Qed.

Lemma basic_valid_iff_witness :
  b_is_valid
    (@_validate_basic_properties Q
       (files_double true ".JPG" 1024 (Raise IndexError)) "scan.JPG") = true.
Proof.
  apply basic_valid_iff. cbn. repeat split; try lia. auto.
Defined.

Lemma basic_errors_shape_witness :
  b_errors
    (@_validate_basic_properties Q
       (files_double false ".jpg" 2048 (Raise IndexError)) "gone.jpg")
  = [FileDoesNotExist].
Proof.
  exact (proj1 (proj2 (basic_errors_shape Q
           (files_double false ".jpg" 2048 (Raise IndexError)) "gone.jpg"))
           eq_refl).
Defined.

(** ** The medical property check *)

(** Comparisons of a quotient of integers with a numeral, as integer
    comparisons. *)
Lemma Zquot_le_l (p : Z) (q : positive) (w h : Z) :
  0 < h -> ((p # q <= inject_Z w / inject_Z h)%Q <-> p * h <= Z.pos q * w).
Proof.
  intros Hh. destruct h as [| h | h]; try lia.
  unfold Qle, Qdiv, Qmult, Qinv, inject_Z. cbn [Qnum Qden]. nia.
Qed.

Lemma Zquot_le_r (p : Z) (q : positive) (w h : Z) :
  0 < h -> ((inject_Z w / inject_Z h <= p # q)%Q <-> Z.pos q * w <= p * h).
Proof.
  intros Hh. destruct h as [| h | h]; try lia.
  unfold Qle, Qdiv, Qmult, Qinv, inject_Z. cbn [Qnum Qden]. nia.
Qed.

Lemma Zquot_lt_l (p : Z) (q : positive) (w h : Z) :
  0 < h -> ((p # q < inject_Z w / inject_Z h)%Q <-> p * h < Z.pos q * w).
Proof.
  intros Hh. destruct h as [| h | h]; try lia.
  unfold Qlt, Qdiv, Qmult, Qinv, inject_Z. cbn [Qnum Qden]. nia.
Qed.

Lemma Zquot_lt_r (p : Z) (q : positive) (w h : Z) :
  0 < h -> ((inject_Z w / inject_Z h < p # q)%Q <-> Z.pos q * w < p * h).
Proof.
  intros Hh. destruct h as [| h | h]; try lia.
  unfold Qlt, Qdiv, Qmult, Qinv, inject_Z. cbn [Qnum Qden]. nia.
Qed.

Lemma brightness_no_aspect (m r : Q) :
  ~ In (UnusualAspectRatio r) (brightness_warnings m).
Proof.
  unfold brightness_warnings.
  destruct (ltb m _); [| destruct (ltb _ m)]; cbn [In]; intuition discriminate.
Qed.

(** X3: on an array with at least one row that converts to gray, the
    aspect ratio warning is given exactly when one side is more than twice
    the other. *)
Theorem aspect_warning_iff :
  forall (cv : Cv2 Q) (image : ndarray) (gray : plane),
    (0 < height image)%nat ->
    to_gray image = Ok gray ->
    exists ws : list (warning_msg Q),
      _validate_medical_image_properties image = Returns ws /\
      ((exists r, In (UnusualAspectRatio r) ws) <->
       (2 * width image < height image \/ 2 * height image < width image)%nat).
Proof.
  intros cv image gray Hh Hg. unfold _validate_medical_image_properties.
  rewrite Hg. destruct (Nat.eqb_spec (height image) 0) as [E | _]; [lia |].
  eexists. split; [reflexivity |].
  set (w := Z.of_nat (width image)). set (h := Z.of_nat (height image)).
  assert (Hpos : 0 < h) by (subst h; lia).
  unfold lit, leb, QLe. cbn [div of_Z QNum].
  change (inject_Z 5 / inject_Z 10)%Q with (5 # 10)%Q.
  change (inject_Z 2) with (2 # 1)%Q.
  destruct (Qle_bool (5 # 10) (inject_Z w / inject_Z h)) eqn:E1;
    [destruct (Qle_bool (inject_Z w / inject_Z h) (2 # 1)) eqn:E2 |];
    cbn [andb negb app].
  - apply Qle_bool_iff in E1, E2.
    apply (Zquot_le_l 5 10 w h Hpos) in E1.
    apply (Zquot_le_r 2 1 w h Hpos) in E2.
    split; [intros (r & Hr); exfalso; exact (brightness_no_aspect _ _ Hr) |].
    subst w h. lia.
  - assert (N2 : ~ (inject_Z w / inject_Z h <= 2 # 1)%Q)
      by (rewrite <- Qle_bool_iff, E2; discriminate).
    rewrite (Zquot_le_r 2 1 w h Hpos) in N2.
    split; [intros _; subst w h; lia |].
    intros _. eexists. left. reflexivity.
  - assert (N1 : ~ (5 # 10 <= inject_Z w / inject_Z h)%Q)
      by (rewrite <- Qle_bool_iff, E1; discriminate).
    rewrite (Zquot_le_l 5 10 w h Hpos) in N1.
    split; [intros _; subst w h; lia |].
    intros _. eexists. left. reflexivity.
Qed.

Lemma aspect_warning_iff_witness :
  exists ws : list (warning_msg Q),
    @_validate_medical_image_properties Q _ _ dbl (Arr2 strip) = Returns ws /\
    exists r, In (UnusualAspectRatio r) ws.
Proof.
  destruct (aspect_warning_iff dbl (Arr2 strip) strip ltac:(cbn; lia) eq_refl)
    as (ws & Hw & Hi).
  exists ws. split; [exact Hw |]. apply Hi. right. cbn. lia.
Defined.

(** X4: on a non-empty array that converts to gray, "very dark" is given
    exactly when the mean gray level is below 30 and "very bright" exactly
    when it is above 200; never both, and never more than two warnings in
    all. *)
Theorem brightness_warning_iff :
  forall (cv : Cv2 Q) (image : ndarray) (gray : plane),
    (0 < height image)%nat ->
    to_gray image = Ok gray ->
    (0 < length (concat gray))%nat ->
    let total := fold_left Z.add (concat gray) 0 in
    let count := Z.of_nat (length (concat gray)) in
    exists ws : list (warning_msg Q),
      _validate_medical_image_properties image = Returns ws /\
      (In VeryDark ws <-> total < 30 * count) /\
      (In VeryBright ws <-> 200 * count < total) /\
      ~ (In VeryDark ws /\ In VeryBright ws) /\
      (length ws <= 2)%nat.
Proof.
  intros cv image gray Hh Hg Hn total count.
  unfold _validate_medical_image_properties.
  rewrite Hg. destruct (Nat.eqb_spec (height image) 0) as [E | _]; [lia |].
  eexists. split; [reflexivity |].
  assert (Hpos : 0 < count) by (subst count; lia).
  unfold brightness_warnings, np_mean_u8. cbn [ltb of_Z div QNum].
  fold total. fold count.
  change (inject_Z 30) with (30 # 1)%Q. change (inject_Z 200) with (200 # 1)%Q.
  set (w1 := if negb _ then _ else _).
  assert (H1 : (length w1 <= 1)%nat /\ ~ In VeryDark w1 /\ ~ In VeryBright w1).
  { subst w1. destruct (negb _); cbn [length In]; repeat split; try lia;
      intuition discriminate. }
  destruct H1 as (L1 & D1 & B1).
  case_ltb (inject_Z total / inject_Z count)%Q (30 # 1)%Q;
    [| case_ltb (200 # 1)%Q (inject_Z total / inject_Z count)%Q].
  - apply (Zquot_lt_r 30 1 total count Hpos) in E.
    rewrite length_app. cbn [length].
    repeat split; try lia; rewrite ?in_app_iff; cbn [In];
      try (intuition (try discriminate; lia)).
  - apply (Zquot_le_l 30 1 total count Hpos) in E.
    apply (Zquot_lt_l 200 1 total count Hpos) in E0.
    rewrite length_app. cbn [length].
    repeat split; try lia; rewrite ?in_app_iff; cbn [In];
      try (intuition (try discriminate; lia)).
  - apply (Zquot_le_l 30 1 total count Hpos) in E.
    apply (Zquot_le_r 200 1 total count Hpos) in E0.
    rewrite length_app. cbn [length].
    repeat split; try lia; rewrite ?in_app_iff; cbn [In];
      try (intuition (try discriminate; lia)).
Qed.

Lemma brightness_warning_iff_witness :
  exists ws : list (warning_msg Q),
    @_validate_medical_image_properties Q _ _ dbl (Arr3 gray2x2) = Returns ws /\
    ~ In VeryDark ws /\ ~ In VeryBright ws.
Proof.
  destruct (brightness_warning_iff dbl (Arr3 gray2x2)
              [[10; 200]; [37; 90]] ltac:(cbn; lia) eq_refl ltac:(cbn; lia))
    as (ws & Hw & Hd & Hb & _).
  exists ws. split; [exact Hw |].
  split; [rewrite Hd | rewrite Hb]; cbn; lia.
Defined.

(** ** [validate_image] *)

Lemma basic_valid_no_errors {T} (F : Files) (image_path : string) :
  (b_is_valid (_validate_basic_properties (T := T) image_path) = true <->
   b_errors (_validate_basic_properties (T := T) image_path) = []) /\
  (length (b_errors (_validate_basic_properties (T := T) image_path)) <= 2)%nat.
Proof.
  unfold _validate_basic_properties, max_file_size.
  destruct (path_exists image_path); cbn [negb];
    [| cbn; split; [split; discriminate | lia]].
  destruct (existsb _ supported_formats); cbn [negb];
    destruct (Z.ltb_spec (50 * 1024 * 1024) (path_size image_path));
    destruct (Z.ltb_spec (path_size image_path) 1024);
    cbn [b_is_valid b_errors app length];
    (split; [split; first [discriminate | reflexivity] | lia]).
Qed.

(** What a True verdict of the characteristic analysis entails. *)
Lemma verdict_true_run (sq : Sqrt Q) (cv : Cv2 Q) (image : ndarray) :
  is_mammography (_check_mammography_characteristics image) = true ->
  ltb (lit 7 10) (confidence (_check_mammography_characteristics image))
    = true /\
  (7 # 10 < confidence (_check_mammography_characteristics image) <= 8 # 10)%Q /\
  (exists gray, to_gray image = Ok gray) /\
  exists g : Q,
    characteristics (_check_mammography_characteristics image)
      !! "grayscale_score" = Some g /\ (1 # 2 < g)%Q.
Proof.
  intros Hv.
  destruct (snd (analysis_body image initial_result)) as [[] | e] eqn:Hrun.
  - destruct (analysis_completes_inv sq cv image Hrun)
      as (gray & g & c & s & a & h & E0 & Eg & Ec & Es & Ea & Eh).
    assert (Hr : _check_mammography_characteristics image
                 = completed g c s a h).
    { unfold _check_mammography_characteristics.
      rewrite (analysis_completed sq cv image gray g c s a h) by assumption.
      reflexivity. }
    rewrite Hr in *. cbn [is_mammography confidence completed] in *.
    destruct (completed_lookups g c s a h) as (L1 & _).
    split; [exact Hv |].
    assert (Hb : (32 # 100 <= fst (aggregate [g; c; s; a; h]) <= 8 # 10)%Q /\
                 (1 # 2 < g)%Q).
    { score_bounds Eg Ec Es Ea Eh.
      - destruct (mean5_bounds g c s (7 # 10) h)
          as (_ & _ & _ & _ & B5 & B6); auto.
        split; [exact B5 | apply B6; exact Hv].
      - destruct (mean5_bounds g c s (4 # 10) h)
          as (_ & _ & _ & _ & B5 & B6); auto.
        split; [exact B5 | apply B6; exact Hv]. }
    destruct Hb as [B5 Bg]. apply aggregate_verdict in Hv.
    split; [split; [exact Hv | apply B5] |].
    split; [exists gray; exact E0 |]. exists g. split; assumption.
  - destruct (analysis_raised sq cv image e Hrun) as (_ & Hf & _).
    rewrite Hf in Hv. discriminate.
Qed.

(** Unfolds [validate_image] down to its case distinctions. *)
Ltac run_validate :=
  unfold validate_image, add_errors, add_warnings, set_valid, update,
    initial_validation;
  cbn [v_is_valid v_is_mammography v_confidence v_errors v_warnings
       v_characteristics app].

(** X5: [validate_image] accepts an image exactly when it reports no
    error; a rejected one has at least one error, at most two, and exactly
    one once the file checks have passed. *)
Theorem validate_valid_iff_no_errors :
  forall (sq : Sqrt Q) (cv : Cv2 Q) (F : Files) (image_path : string),
    let r := validate_image image_path in
    (v_is_valid r = true <-> v_errors r = []) /\
    (length (v_errors r) <= 2)%nat /\
    (b_is_valid (_validate_basic_properties (T := Q) image_path) = true ->
     (length (v_errors r) <= 1)%nat).
Proof.
  intros sq cv F p r. subst r. run_validate.
  destruct (basic_valid_no_errors (T := Q) F p) as [Hb Hl].
  destruct (b_is_valid (_validate_basic_properties p)) eqn:Ev; cbn [negb].
  - destruct (_load_image p) as [image |];
      [| cbn; repeat split; try discriminate; lia].
    destruct (_validate_medical_image_properties image) as [ws | e];
      [| cbn; repeat split; try discriminate; lia].
    destruct (is_mammography _ && ltb _ _);
      cbn; repeat split; try discriminate; lia.
  - cbn [v_is_valid v_errors].
    split; [| split; [exact Hl | discriminate]].
    split; [discriminate |]. intros He. apply Hb in He. discriminate.
Qed.

Lemma validate_valid_iff_no_errors_witness :
  (length (v_errors (@validate_image Q _ _ Qsqrt3 dbl
                       (files_double true ".png" 4096 (Raise IndexError))
                       "scan.png")) <= 1)%nat.
Proof.
  exact (proj2 (proj2 (validate_valid_iff_no_errors Qsqrt3 dbl
           (files_double true ".png" 4096 (Raise IndexError)) "scan.png"))
           eq_refl).
Defined.

(** X6: the second half of the final test is redundant: [validate_image]
    accepts exactly when the characteristic analysis said "mammography"
    and the medical property check did not raise. *)
Theorem validate_valid_iff_mammography :
  forall (sq : Sqrt Q) (cv : Cv2 Q) (F : Files) (image_path : string),
    let r := validate_image image_path in
    v_is_valid r = true <->
    v_is_mammography r = true /\
    (forall e, ~ In (ValidationError e) (v_errors r)).
Proof.
  intros sq cv F p r. subst r. run_validate.
  destruct (b_is_valid (_validate_basic_properties p)); cbn [negb];
    [| cbn; split; [discriminate | intros [? _]; discriminate]].
  destruct (_load_image p) as [image |];
    [| cbn; split; [discriminate | intros [? _]; discriminate]].
  destruct (_validate_medical_image_properties image) as [ws | e].
  - destruct (is_mammography (_check_mammography_characteristics image))
      eqn:Hm; cbn [andb].
    + destruct (verdict_true_run sq cv image Hm) as (Hc & _).
      rewrite Hc. cbn. split; [| reflexivity].
      intros _. split; [reflexivity | intros e []].
    + cbn. split; [discriminate | intros [? _]; discriminate].
  - cbn. split; [discriminate |]. intros [_ Hn]. exfalso.
    apply (Hn e). left. reflexivity.
Qed.

Lemma validate_valid_iff_mammography_witness :
  v_is_valid (@validate_image Q _ _ Qsqrt3 dbl
                (files_double true ".png" 4096 (Ok [[[7; 7; 7]]]))
                "scan.png") = false.
Proof.
  apply not_true_is_false. intros Hv.
  apply (validate_valid_iff_mammography Qsqrt3 dbl
           (files_double true ".png" 4096 (Ok [[[7; 7; 7]]])) "scan.png")
    in Hv.
  destruct Hv as [Hm _]. vm_compute in Hm. discriminate.
Defined.

(** X7: an accepted image passed every stage: the file checks, the
    decoder, the gray conversion; its confidence is above 0.7 and at most 0.8, its
    grayscale sub-score is above 0.5, and it carries the characteristics of
    the analysis. *)
Theorem validate_valid_implies :
  forall (sq : Sqrt Q) (cv : Cv2 Q) (F : Files) (image_path : string),
    let r := validate_image image_path in
    v_is_valid r = true ->
    b_is_valid (_validate_basic_properties (T := Q) image_path) = true /\
    exists a : list (list (list Z)),
      pil_load_rgb image_path = Ok a /\
      (exists gray, cvtColor_RGB2GRAY a = Ok gray) /\
      v_is_mammography r = true /\
      (7 # 10 < v_confidence r <= 8 # 10)%Q /\
      v_characteristics r
        = Some (characteristics (_check_mammography_characteristics (Arr3 a))) /\
      exists g : Q,
        characteristics (_check_mammography_characteristics (Arr3 a))
          !! "grayscale_score" = Some g /\ (1 # 2 < g)%Q.
Proof.
  intros sq cv F p r. subst r. run_validate. unfold _load_image.
  destruct (b_is_valid (_validate_basic_properties p)); cbn [negb];
    [| cbn; discriminate].
  destruct (pil_load_rgb p) as [a | e]; [| cbn; discriminate].
  destruct (_validate_medical_image_properties (Arr3 a)) as [ws | e];
    [| cbn; discriminate].
  destruct (is_mammography (_check_mammography_characteristics (Arr3 a)))
    eqn:Hm; cbn [andb]; [| cbn; discriminate].
  destruct (verdict_true_run sq cv (Arr3 a) Hm) as (Hc & Hr & Hg & Hs).
  rewrite Hc. cbn. intros _.
  split; [reflexivity |]. exists a. split; [reflexivity |].
  split; [exact Hg |]. split; [reflexivity |]. split; [exact Hr |].
  split; [reflexivity | exact Hs].
Qed.

Lemma validate_valid_implies_witness :
  v_is_valid (@validate_image Q _ _ Qsqrt3 dbl strip_png "scan.png") = true /\
  (7 # 10 < v_confidence (@validate_image Q _ _ Qsqrt3 dbl strip_png "scan.png")
   <= 8 # 10)%Q.
Proof.
  assert (Hv : v_is_valid (@validate_image Q _ _ Qsqrt3 dbl strip_png "scan.png")
               = true) by (vm_compute; reflexivity).
  split; [exact Hv |].
  destruct (validate_valid_implies Qsqrt3 dbl strip_png "scan.png" Hv)
    as (_ & a & _ & _ & _ & Hc & _).
  exact Hc.
Defined.

(** X8: when the decoded array does not convert to gray, the
    characteristic analysis is abandoned at its first step and the medical property check
    raises: [validate_image] answers with confidence 0.0, an empty set of
    characteristics, no warning, and the single error "Validation error";
    the "does not appear to be a breast mammography" message is not
    given. *)
Theorem validate_gray_conversion_failure :
  forall (sq : Sqrt Q) (cv : Cv2 Q) (F : Files) (image_path : string)
         (a : list (list (list Z))) (e : exn),
    b_is_valid (_validate_basic_properties (T := Q) image_path) = true ->
    pil_load_rgb image_path = Ok a ->
    a <> [] ->
    cvtColor_RGB2GRAY a = Raise e ->
    validate_image image_path
    = mk_validation false false 0%Q [ValidationError (Reraised e)] []
                    (Some ∅).
Proof.
  intros sq cv F p a e Hb Hl Ha Hc. run_validate. unfold _load_image.
  rewrite Hb, Hl. cbn [negb].
  assert (Hr : _check_mammography_characteristics (Arr3 a) = initial_result).
  { run_body. cbn [to_gray]. rewrite Hc. reflexivity. }
  rewrite Hr. unfold _validate_medical_image_properties.
  cbn [to_gray height]. rewrite Hc.
  destruct a as [| row a]; [contradiction |]. reflexivity.
Qed.

Lemma validate_gray_conversion_failure_witness :
  @validate_image Q _ _ Qsqrt3 dbl two_channel_png "scan.png"
  = mk_validation false false 0%Q [ValidationError (Reraised Cv2Error)] []
                  (Some ∅).
Proof.
  apply (validate_gray_conversion_failure Qsqrt3 dbl two_channel_png
           "scan.png" [[[10; 20]; [30; 40]]; [[50; 60]; [70; 80]]] Cv2Error);
    [reflexivity | reflexivity | discriminate | reflexivity].
Defined.

(** ** The grayscale scorer on arrays of any depth *)

Lemma mapM_Ok_inv {A B} (f : A -> result B) (l : list A) (ys : list B) :
  mapM f l = Ok ys -> forall x, In x l -> exists y, f x = Ok y.
Proof.
  revert ys. induction l as [| x l IH]; intros ys Hm z Hz; [destruct Hz |].
  cbn [mapM] in Hm. destruct (f x) as [y | e] eqn:Ex; [| discriminate Hm].
  cbn [bind] in Hm. destruct (mapM f l) as [ys' | e]; [| discriminate Hm].
  destruct Hz as [<- | Hz]; [exists y; exact Ex | exact (IH ys' eq_refl z Hz)].
Qed.

Lemma mapM_Raise_inv {A B} (f : A -> result B) (l : list A) (e : exn) :
  mapM f l = Raise e -> exists x, In x l /\ f x = Raise e.
Proof.
  induction l as [| x l IH]; intros Hm; [discriminate Hm |].
  cbn [mapM] in Hm. destruct (f x) as [y | e'] eqn:Ex.
  - cbn [bind] in Hm. destruct (mapM f l) as [ys' | e'']; [discriminate Hm |].
    cbn [bind] in Hm. injection Hm as ->.
    destruct (IH eq_refl) as (z & Hz & Ez). exists z. split; [right |]; assumption.
  - cbn [bind] in Hm. injection Hm as ->. exists x. split; [left; reflexivity | exact Ex].
Qed.

Lemma mapM_ext {A B} (f g : A -> result B) (l : list A) :
  (forall x, In x l -> f x = g x) -> mapM f l = mapM g l.
Proof.
  induction l as [| x l IH]; intros Hf; [reflexivity |]. cbn [mapM].
  rewrite (Hf x (or_introl eq_refl)), IH; [reflexivity |].
  intros y Hy. apply Hf. right. exact Hy.
Qed.

Lemma mapM_pre {A B C} (f : B -> result C) (g : A -> B) (l : list A) :
  mapM f (map g l) = mapM (fun x => f (g x)) l.
Proof.
  induction l as [| x l IH]; [reflexivity |]. cbn [mapM map].
  rewrite IH. reflexivity.
Qed.

Lemma channel_deep (a : list (list (list Z))) (k : nat) :
  (forall rows px, In rows a -> In px rows -> (k < length px)%nat) ->
  channel a k = Ok (map (map (fun px => nth k px 0)) a).
Proof.
  intros Ha. unfold channel. apply mapM_map. intros rows Hr.
  apply mapM_map. intros px Hp. specialize (Ha rows px Hr Hp).
  destruct (nth_error px k) as [v |] eqn:E.
  - f_equal. symmetry. apply nth_error_nth. exact E.
  - apply nth_error_None in E. lia.
Qed.

Lemma channel_Ok_inv (a : list (list (list Z))) (k : nat) (p : plane) :
  channel a k = Ok p ->
  forall rows px, In rows a -> In px rows -> (k < length px)%nat.
Proof.
  unfold channel. intros Hc rows px Hr Hp.
  destruct (mapM_Ok_inv _ _ _ Hc rows Hr) as (r & Er).
  destruct (mapM_Ok_inv _ _ _ Er px Hp) as (v & Ev).
  destruct (nth_error px k) as [w |] eqn:E; [| discriminate Ev].
  apply nth_error_Some. rewrite E. discriminate.
Qed.

Lemma channel_Raise_inv (a : list (list (list Z))) (k : nat) (e : exn) :
  channel a k = Raise e -> e = IndexError.
Proof.
  unfold channel. intros Hc.
  destruct (mapM_Raise_inv _ _ _ Hc) as (rows & _ & Er).
  destruct (mapM_Raise_inv _ _ _ Er) as (px & _ & Ep).
  destruct (nth_error px k); [discriminate Ep | injection Ep as <-; reflexivity].
Qed.

Lemma nth_error_take {A} (n k : nat) (l : list A) :
  (k < n)%nat -> nth_error (firstn n l) k = nth_error l k.
Proof.
  revert k l. induction n as [| n IH]; intros k l Hk; [lia |].
  destruct l as [| x l]; [reflexivity |]. destruct k as [| k]; [reflexivity |].
  cbn [firstn nth_error]. apply IH. lia.
Qed.

Lemma channel_take (a : list (list (list Z))) (n k : nat) :
  (k < n)%nat -> channel (map (map (firstn n)) a) k = channel a k.
Proof.
  intros Hk. unfold channel. rewrite mapM_pre. apply mapM_ext. intros rows _.
  rewrite mapM_pre. apply mapM_ext. intros px _.
  rewrite nth_error_take by exact Hk. reflexivity.
Qed.

(** X9: lines 193-194 index channels 0, 1 and 2.  On an array with at
    least one pixel, [_check_grayscale_nature] returns a score exactly when every
    pixel has three channels or more, and [IndexError] is the only
    exception it can raise. *)
Theorem grayscale_returns_iff_three_channels :
  forall {T : Type} `{Num T} (a : list (list (list Z))),
    concat a <> [] ->
    ((exists v : T, _check_grayscale_nature (Arr3 a) = Ok v) <->
     (forall rows px, In rows a -> In px rows -> (3 <= length px)%nat)) /\
    ((forall v : T, _check_grayscale_nature (Arr3 a) <> Ok v) <->
     _check_grayscale_nature (T := T) (Arr3 a) = Raise IndexError).
Proof.
  intros T N a _.
  assert (Hraise : forall e, _check_grayscale_nature (T := T) (Arr3 a) = Raise e ->
                             e = IndexError).
  { unfold _check_grayscale_nature. intros e He.
    destruct (channel a 0) as [r |] eqn:E0;
      [| injection He as <-; exact (channel_Raise_inv _ _ _ E0)].
    destruct (channel a 1) as [g |] eqn:E1;
      [| injection He as <-; exact (channel_Raise_inv _ _ _ E1)].
    destruct (channel a 2) as [b |] eqn:E2;
      [discriminate He | injection He as <-; exact (channel_Raise_inv _ _ _ E2)]. }
  split; [split |].
  - intros [v Hv] rows px Hr Hp. unfold _check_grayscale_nature in Hv.
    destruct (channel a 0) as [r |]; [| discriminate Hv].
    destruct (channel a 1) as [g |]; [| discriminate Hv].
    destruct (channel a 2) as [b |] eqn:E2; [| discriminate Hv].
    pose proof (channel_Ok_inv a 2 b E2 rows px Hr Hp). lia.
  - intros Ha. unfold _check_grayscale_nature.
    rewrite !channel_deep
      by (intros rows px Hr Hp; specialize (Ha rows px Hr Hp); lia).
    eexists. reflexivity.
  - split.
    + intros Hn. destruct (_check_grayscale_nature (Arr3 a)) as [v | e] eqn:E.
      * exfalso. exact (Hn v eq_refl).
      * f_equal. apply Hraise. reflexivity.
    + intros Hr v Hv. rewrite Hr in Hv. discriminate Hv.
Qed.

Lemma grayscale_returns_iff_three_channels_witness :
  _check_grayscale_nature (T := Q) two_channel = Raise IndexError.
Proof.
  apply (proj1 (proj2 (grayscale_returns_iff_three_channels (T := Q)
                         [[[10; 20]; [30; 40]]; [[50; 60]; [70; 80]]]
                         ltac:(discriminate)))).
  intros v Hv. vm_compute in Hv. discriminate Hv.
Defined.

(** X10: channels beyond the third, such as an alpha channel, have no
    influence: the score of an array is the score of its first three
    channels. *)
Theorem grayscale_ignores_extra_channels :
  forall {T : Type} `{Num T} (a : list (list (list Z))),
    _check_grayscale_nature (T := T) (Arr3 a)
    = _check_grayscale_nature (Arr3 (map (map (firstn 3)) a)).
Proof.
  intros T N a. unfold _check_grayscale_nature.
  rewrite !channel_take by lia. reflexivity.
Qed.

Lemma three_channel_rev (a : list (list (list Z))) :
  three_channel a = true -> three_channel (map (map (@rev Z)) a) = true.
Proof.
  unfold three_channel. rewrite !forallb_forall. intros Ha rows Hr.
  apply in_map_iff in Hr. destruct Hr as (rows' & <- & Hr').
  specialize (Ha rows' Hr'). rewrite forallb_forall in Ha |- *.
  intros px Hp. apply in_map_iff in Hp. destruct Hp as (px' & <- & Hp').
  rewrite length_rev. exact (Ha px' Hp').
Qed.

Lemma channel_mean_rev (a : list (list (list Z))) (k : nat) :
  three_channel a = true -> (k < 3)%nat ->
  channel_mean (map (map (@rev Z)) a) k = channel_mean a (2 - k).
Proof.
  intros Ha Hk. unfold channel_mean, pixel_count.
  rewrite <- !concat_map, !length_map, map_map. do 3 f_equal.
  apply map_ext_in. intros px Hp. apply in_concat in Hp.
  destruct Hp as (rows & Hr & Hp).
  assert (Hl : length px = 3%nat) by (eapply three_channel_px; eauto; exact []).
  destruct px as [| x [| y [| z [| w px]]]]; try discriminate Hl.
  destruct k as [| [| [| k]]]; [reflexivity | reflexivity | reflexivity | lia].
Qed.

Lemma variance3_swap (x y z : Q) : (variance3 z y x == variance3 x y z)%Q.
Proof.
  unfold variance3. field.
Qed.

(** X11: in exact arithmetic the score does not depend on the order in
    which a three-channel array stores its channels: RGB and BGR score
    alike. *)
Theorem grayscale_channel_order_irrelevant :
  forall (a : list (list (list Z))),
    three_channel a = true ->
    (0 < pixel_count a)%nat ->
    exists s s' : Q,
      _check_grayscale_nature (Arr3 a) = Ok s /\
      _check_grayscale_nature (Arr3 (map (map (@rev Z)) a)) = Ok s' /\
      (s == s')%Q.
Proof.
  intros a Ha _.
  destruct (grayscale_three_channel a Ha) as (s & Hs & Es).
  destruct (grayscale_three_channel _ (three_channel_rev a Ha)) as (s' & Hs' & Es').
  exists s, s'. split; [exact Hs | split; [exact Hs' |]].
  rewrite Es, Es'. apply score_grayscale_spec_proper.
  unfold channel_mean_variance.
  rewrite !channel_mean_rev by (auto; lia). cbn [Nat.sub].
  symmetry. apply variance3_swap.
Qed.

Lemma grayscale_channel_order_irrelevant_witness :
  exists s s' : Q,
    _check_grayscale_nature (Arr3 [[[200; 30; 10]; [90; 60; 20]]]) = Ok s /\
    _check_grayscale_nature (Arr3 [[[10; 30; 200]; [20; 60; 90]]]) = Ok s' /\
    (s == s')%Q.
Proof.
  exact (grayscale_channel_order_irrelevant
           [[[200; 30; 10]; [90; 60; 20]]] eq_refl ltac:(cbn; lia)).
Defined.

(** ** The corner patches *)










(** ** The histogram peaks *)

Lemma find_peaks_In (h : list Q) (i : nat) :
  In i (find_peaks h) ->
  (1 <= i)%nat /\ (i + 2 <= length h)%nat /\
  (nth (i - 1) h 0 < nth i h 0)%Q /\
  (nth (i + 1) h 0 < nth i h 0)%Q /\
  (np_max h * (1 # 10) < nth i h 0)%Q.
Proof.
  unfold find_peaks. intros Hi. apply List.filter_In in Hi.
  destruct Hi as [Hs Hp]. apply in_seq in Hs.
  apply andb_prop in Hp. destruct Hp as [Hp H3].
  apply andb_prop in Hp. destruct Hp as [H1 H2].
  cbn [ltb QNum] in H1, H2, H3.
  apply Qltb_lt in H1, H2, H3.
  repeat split; try lia; assumption.
Qed.

Lemma filter_none {A} (p : A -> bool) (l : list A) :
  (forall x, In x l -> p x = false) -> List.filter p l = [].
Proof.
  induction l as [| x l IH]; intros Hp; [reflexivity |]. cbn [List.filter].
  rewrite (Hp x (or_introl eq_refl)). apply IH.
  intros y Hy. apply Hp. right. exact Hy.
Qed.

Lemma filter_seq_single (p : nat -> bool) (a n k : nat) :
  (a <= k < a + n)%nat -> p k = true ->
  (forall i, (a <= i < a + n)%nat -> i <> k -> p i = false) ->
  List.filter p (seq a n) = [k].
Proof.
  intros Hk Hp Hn.
  replace n with ((k - a) + S (a + n - k - 1))%nat by lia.
  rewrite seq_app, List.filter_app. cbn [seq List.filter].
  replace (a + (k - a))%nat with k by lia. rewrite Hp.
  rewrite !filter_none; [reflexivity | |];
    intros i Hi; apply in_seq in Hi; apply Hn; lia.
Qed.

Lemma filter_seq_sparse (p : nat -> bool) :
  (forall i, p i = true -> p (S i) = false) ->
  forall n a,
    (2 * length (List.filter p (seq a n)) <= n + 1)%nat /\
    (p a = false -> (2 * length (List.filter p (seq a n)) <= n)%nat).
Proof.
  intros Hp. induction n as [| n IH]; intros a; [cbn; lia |].
  cbn [seq List.filter]. destruct (IH (S a)) as [I1 I2].
  destruct (p a) eqn:Ea; cbn [length].
  - specialize (I2 (Hp a Ea)). split; [lia | discriminate].
  - split; [lia | intros _; lia].
Qed.

Lemma fold_max_In (r : list Q) (x : Q) :
  In (fold_left (fun m y => if Qltb m y then y else m) r x) (x :: r).
Proof.
  revert x. induction r as [| y r IH]; intros x; [left; reflexivity |].
  cbn [fold_left].
  destruct (Qltb x y);
    [destruct (IH y) as [E | E] | destruct (IH x) as [E | E]].
  - right; left; exact E.
  - right; right; exact E.
  - left; exact E.
  - right; right; exact E.
Qed.

Lemma np_max_nth (h : list Q) :
  h <> [] -> exists j, (j < length h)%nat /\ np_max h = nth j h 0%Q.
Proof.
  destruct h as [| x r]; [congruence | intros _].
  pose proof (fold_max_In r x) as Hin.
  apply (In_nth _ _ 0%Q) in Hin. destruct Hin as (j & Hj & E).
  exists j. split; [exact Hj | symmetry; exact E].
Qed.

(** A histogram that rises to bin [k] and falls after it is bounded by its
    value at [k]. *)
Lemma unimodal_bound (h : list Q) (k : nat) :
  (forall i, (i < k)%nat -> (nth i h 0 <= nth (i + 1) h 0)%Q) ->
  (forall i, (k <= i)%nat -> (i + 1 < length h)%nat ->
             (nth (i + 1) h 0 <= nth i h 0)%Q) ->
  forall j, (j < length h)%nat -> (nth j h 0 <= nth k h 0)%Q.
Proof.
  intros Hinc Hdec j Hj. destruct (Nat.le_gt_cases j k) as [Hle | Hgt].
  - remember (k - j)%nat as d eqn:Ed. revert j Hj Hle Ed.
    induction d as [| d IH]; intros j Hj Hle Ed.
    + replace j with k by lia. apply Qle_refl.
    + eapply Qle_trans; [apply (Hinc j); lia |].
      destruct (Nat.eq_dec (j + 1)%nat k) as [-> | Hne]; [apply Qle_refl |].
      destruct (Nat.lt_ge_cases (j + 1)%nat (length h)) as [Hl | Hl].
      * apply IH; lia.
      * rewrite (nth_overflow h 0%Q Hl). rewrite nth_overflow by lia.
        apply Qle_refl.
  - remember (j - k)%nat as d eqn:Ed. revert j Hj Hgt Ed.
    induction d as [| d IH]; intros j Hj Hgt Ed; [lia |].
    destruct j as [| j]; [lia |].
    eapply Qle_trans; [replace (S j) with (j + 1)%nat by lia;
                       apply (Hdec j); lia |].
    destruct (Nat.eq_dec j k) as [-> | Hne]; [apply Qle_refl |].
    apply IH; lia.
Qed.

Lemma find_peaks_none (h : list Q) :
  (forall i, (1 <= i)%nat -> (i + 2 <= length h)%nat ->
             (nth i h 0 <= nth (i - 1) h 0)%Q \/
             (nth i h 0 <= nth (i + 1) h 0)%Q) ->
  find_peaks h = [].
Proof.
  intros Hn. destruct (find_peaks h) as [| i l] eqn:E; [reflexivity |].
  exfalso.
  destruct (find_peaks_In h i) as (H1 & H2 & H3 & H4 & _);
    [rewrite E; left; reflexivity |].
  destruct (Hn i H1 H2) as [Hc | Hc].
  - apply (Qlt_irrefl (nth i h 0%Q)). eapply Qle_lt_trans; eassumption.
  - apply (Qlt_irrefl (nth i h 0%Q)). eapply Qle_lt_trans; eassumption.
Qed.

Lemma seq_forallb (p : nat -> bool) (a n : nat) :
  forallb p (seq a n) = true ->
  forall i, (a <= i < a + n)%nat -> p i = true.
Proof.
  intros Hp i Hi. rewrite forallb_forall in Hp. apply Hp. apply in_seq. exact Hi.
Qed.

(** X13: a smoothed histogram that is non-decreasing, or non-increasing, or
    has fewer than three bins, has no peak: the histogram score is 0.5. *)
Theorem histogram_monotone_scores_half :
  forall (cv : Cv2 Q) (gray : plane) (hist hist_smooth : list Q),
    calcHist gray = Ok hist ->
    GaussianBlur hist = Ok hist_smooth ->
    (forall i, (i + 1 < length hist_smooth)%nat ->
               (nth i hist_smooth 0 <= nth (i + 1) hist_smooth 0)%Q) \/
    (forall i, (i + 1 < length hist_smooth)%nat ->
               (nth (i + 1) hist_smooth 0 <= nth i hist_smooth 0)%Q) \/
    (length hist_smooth < 3)%nat ->
    find_peaks hist_smooth = [] /\
    _analyze_histogram_patterns gray = Ok (5 # 10)%Q.
Proof.
  intros cv gray hist hs Hc Hg Hm.
  assert (Hp : find_peaks hs = []).
  { apply find_peaks_none. intros i H1 H2.
    destruct Hm as [Hm | [Hm | Hm]]; [| | lia].
    - right. apply Hm. lia.
    - left. replace i with (i - 1 + 1)%nat at 1 by lia. apply Hm. lia. }
  split; [exact Hp |].
  unfold _analyze_histogram_patterns. rewrite Hc. cbn [bind]. rewrite Hg.
  cbn [bind]. rewrite Hp. reflexivity.
Qed.

Lemma histogram_monotone_scores_half_witness :
  @_analyze_histogram_patterns Q _ dbl [[255]] = Ok (5 # 10)%Q.
Proof.
  refine (proj2 (histogram_monotone_scores_half dbl [[255]] _ _
                   eq_refl eq_refl (or_introl _))).
  intros i Hi. apply Qle_bool_iff.
  apply (seq_forallb
           (fun i => Qle_bool (nth i (histogram [[255]]) 0%Q)
                              (nth (i + 1) (histogram [[255]]) 0%Q)) 0 255);
    [vm_compute; reflexivity |].
  change (length (histogram (T := Q) [[255]])) with 256%nat in Hi. lia.
Defined.

(** X14: a smoothed histogram with a single hump: non-decreasing up to an
    interior bin [k], non-increasing after it, strictly above both
    neighbours at [k] and positive there.  Bin [k] is the only peak and the
    histogram score is 0.8. *)
Theorem histogram_single_hump_scores_high :
  forall (cv : Cv2 Q) (gray : plane) (hist hist_smooth : list Q) (k : nat),
    calcHist gray = Ok hist ->
    GaussianBlur hist = Ok hist_smooth ->
    (1 <= k)%nat -> (k + 2 <= length hist_smooth)%nat ->
    (forall i, (i < k)%nat ->
               (nth i hist_smooth 0 <= nth (i + 1) hist_smooth 0)%Q) ->
    (forall i, (k <= i)%nat -> (i + 1 < length hist_smooth)%nat ->
               (nth (i + 1) hist_smooth 0 <= nth i hist_smooth 0)%Q) ->
    (nth (k - 1) hist_smooth 0 < nth k hist_smooth 0)%Q ->
    (nth (k + 1) hist_smooth 0 < nth k hist_smooth 0)%Q ->
    (0 < nth k hist_smooth 0)%Q ->
    find_peaks hist_smooth = [k] /\
    _analyze_histogram_patterns gray = Ok (8 # 10)%Q.
Proof.
  intros cv gray hist hs k Hc Hg Hk1 Hk2 Hinc Hdec Hl Hr Hpos.
  assert (Hp : find_peaks hs = [k]).
  { unfold find_peaks. apply filter_seq_single; [lia | |].
    - cbn [ltb QNum]. rewrite !andb_true_iff, !Qltb_lt.
      split; [split; assumption |].
      destruct (np_max_nth hs) as (j & Hj & ->).
      { intros ->. cbn in Hk2. lia. }
      pose proof (unimodal_bound hs k Hinc Hdec j Hj) as Hb.
      unfold lit. cbn [mul div of_Z QNum].
      change (inject_Z 1 / inject_Z 10)%Q with (1 # 10)%Q.
      change (inject_Z 0) with 0%Q. lra.
    - intros i Hi Hne. cbn [ltb of_Z QNum].
      destruct (Nat.lt_ge_cases i k) as [Hlt | Hge].
      + assert (Hs : (nth i hs 0 <= nth (i + 1) hs 0)%Q) by (apply Hinc; lia).
        apply Qltb_ge in Hs. change (inject_Z 0) with 0%Q. rewrite Hs.
        rewrite andb_false_r. reflexivity.
      + assert (Hs : (nth (i - 1 + 1) hs 0 <= nth (i - 1) hs 0)%Q)
          by (apply Hdec; lia).
        replace (i - 1 + 1)%nat with i in Hs by lia.
        apply Qltb_ge in Hs. change (inject_Z 0) with 0%Q. rewrite Hs.
        reflexivity. }
  split; [exact Hp |].
  unfold _analyze_histogram_patterns. rewrite Hc. cbn [bind]. rewrite Hg.
  cbn [bind]. rewrite Hp. reflexivity.
Qed.

Lemma histogram_single_hump_scores_high_witness :
  @_analyze_histogram_patterns Q _ dbl [[5]] = Ok (8 # 10)%Q.
Proof.
  refine (proj2 (histogram_single_hump_scores_high dbl [[5]] _ _ 5
                   eq_refl eq_refl _ _ _ _ _ _ _)).
  - lia.
  - change (length (histogram (T := Q) [[5]])) with 256%nat. lia.
  - intros i Hi. apply Qle_bool_iff.
    apply (seq_forallb
             (fun i => Qle_bool (nth i (histogram [[5]]) 0%Q)
                                (nth (i + 1) (histogram [[5]]) 0%Q)) 0 5);
      [vm_compute; reflexivity | lia].
  - intros i Hi Hl. apply Qle_bool_iff.
    change (length (histogram (T := Q) [[5]])) with 256%nat in Hl.
    apply (seq_forallb
             (fun i => Qle_bool (nth (i + 1) (histogram [[5]]) 0%Q)
                                (nth i (histogram [[5]]) 0%Q)) 5 250);
      [vm_compute; reflexivity | lia].
  - vm_compute. reflexivity.
  - vm_compute. reflexivity.
  - vm_compute. reflexivity.
Defined.

(** X15: the peaks found by the loop of lines 267-271 are interior bins,
    no two of them adjacent; a histogram of [n] bins has at most [n / 2]
    peaks. *)
Theorem peaks_never_adjacent :
  forall (h : list Q),
    (forall i, In i (find_peaks h) ->
               (1 <= i)%nat /\ (i + 2 <= length h)%nat /\
               ~ In (i + 1)%nat (find_peaks h)) /\
    (2 * length (find_peaks h) <= length h)%nat.
Proof.
  intros h. split.
  - intros i Hi. destruct (find_peaks_In h i Hi) as (H1 & H2 & _ & H4 & _).
    split; [exact H1 | split; [exact H2 |]].
    intros Hn. destruct (find_peaks_In h _ Hn) as (_ & _ & H3 & _).
    replace (i + 1 - 1)%nat with i in H3 by lia.
    apply (Qlt_irrefl (nth i h 0%Q)). eapply Qlt_trans; eassumption.
  - unfold find_peaks.
    match goal with
    | |- context [List.filter ?p _] =>
        destruct (filter_seq_sparse p) with (n := (length h - 2)%nat) (a := 1%nat)
          as [Hs _]
    end.
    + intros i Hi. cbn [ltb of_Z QNum] in Hi |- *.
      apply andb_prop in Hi. destruct Hi as [Hi _].
      apply andb_prop in Hi. destruct Hi as [_ Hi].
      apply Qltb_lt in Hi.
      replace (S i - 1)%nat with i by lia.
      replace (i + 1)%nat with (S i) in Hi by lia.
      assert (Hs : Qltb (nth i h (inject_Z 0)) (nth (S i) h (inject_Z 0)) = false)
        by (apply Qltb_ge; apply Qlt_le_weak; exact Hi).
      rewrite Hs. reflexivity.
    + destruct (List.filter _ _) as [| x l] eqn:E; [cbn; lia |].
      assert (Hx : In x (x :: l)) by (left; reflexivity).
      rewrite <- E in Hx. apply List.filter_In in Hx. destruct Hx as [Hx _].
      apply in_seq in Hx. cbn [length] in *. lia.
Qed.
